(** * profile-api: journal versioning, request context and image stores

    A shallow embedding of the Go packages [journal], [auth] and [profile]
    (and the part of [main] that installs the global middleware).

    - a Go [int] is a [Z] with 64-bit two's complement wrap-around;
    - [interface{}] values ([gin.Context] keys, [gin.H] members, [bson.M]
      members) are the inductive [any];
    - [gin.Context.Keys], [gin.H] and [bson.M] are [gmap string _];
    - a MongoDB collection is the list of its documents in natural order:
      [FindOne], [UpdateOne] and [DeleteOne] act on the first match,
      [InsertOne] appends;
    - a handler is a function of the world (collections, how often the clock,
      the store and the id generator have been used) that ends in a JSON
      reply or in a panic;
    - what the repository does not contain (wall clock, store faults, UUIDs,
      JWT verification, [net.SplitHostPort], how the store orders a string
      against a date) is a field of [Env]; [filepath.Join] is a variable of
      the local image store. *)

From Stdlib Require Import ZArith Lia Ascii.
From stdpp Require Import gmap strings list fin_maps.

(** ** Go base types *)

Module Go.

Definition int_max : Z := (2 ^ 63 - 1)%Z.
Definition int_min : Z := (- 2 ^ 63)%Z.

(** 64-bit two's complement representative of [z]. *)
Definition wrap (z : Z) : Z := ((z + 2 ^ 63) mod 2 ^ 64 - 2 ^ 63)%Z.

(** [a + b] on [int]. *)
Definition add (a b : Z) : Z := wrap (a + b).

(** [time.Time], as an instant; [time.Time{}] is [zeroTime]. *)
Definition Time : Type := Z.
Definition zeroTime : Time := 0%Z.

Definition quote : string := String "034"%char EmptyString.

(** [strings.Contains]. *)
Fixpoint Contains (s sub : string) : bool :=
  if String.prefix sub s then true
  else match s with
       | EmptyString => false
       | String _ s' => Contains s' sub
       end.

(** [strings.Replace(s, old, new, 1)] for a non-empty [old]. *)
Fixpoint Replace1 (s old new : string) : string :=
  if String.prefix old s
  then new +:+ String.substring (String.length old)
                 (String.length s - String.length old) s
  else match s with
       | EmptyString => EmptyString
       | String a s' => String a (Replace1 s' old new)
       end.

(** [strings.Split(s, sep)] for a one-character separator: [cur] is the
    part read so far, reversed. *)
Fixpoint split_at (sep : Ascii.ascii) (s : string) (cur : string) : list string :=
  match s with
  | EmptyString => [String.rev cur]
  | String a s' =>
      if Ascii.eqb a sep
      then String.rev cur :: split_at sep s' EmptyString
      else split_at sep s' (String a cur)
  end.

Definition Split (s : string) (sep : Ascii.ascii) : list string :=
  split_at sep s EmptyString.

End Go.

(** ** Data model: [auth/model.go] and the journal model *)

Module User.
Record t := mk {
  ID : string;
  Name : string;
  Email : string;
  Password : string
}.
End User.

Module Entry.
Record t := mk {
  Version : Z;
  Title : string;
  Content : string;
  Attachments : list string;
  UpdatedAt : Go.Time
}.

Definition with_Version (v : Z) (e : t) : t :=
  mk v (Title e) (Content e) (Attachments e) (UpdatedAt e).
Definition with_UpdatedAt (u : Go.Time) (e : t) : t :=
  mk (Version e) (Title e) (Content e) (Attachments e) u.
End Entry.

Module Taxonomy.
Record t := mk {
  Categories : list string;
  Subcategories : list string;
  Topics : list string;
  Tags : list string
}.

(** The zero value: four nil slices. *)
Definition zero : t := mk [] [] [] [].
End Taxonomy.

Module JournalEntry.
Record t := mk {
  JournalID : string;
  UserID : string;
  Version : Z;
  Entries : list Entry.t;
  Status : string;
  Taxonomy : Taxonomy.t;
  Summary : string;
  CreatedAt : Go.Time;
  UpdatedAt : Go.Time
}.

Definition with_Version (v : Z) (j : t) : t :=
  mk (JournalID j) (UserID j) v (Entries j) (Status j) (Taxonomy j)
     (Summary j) (CreatedAt j) (UpdatedAt j).
Definition with_Entries (es : list Entry.t) (j : t) : t :=
  mk (JournalID j) (UserID j) (Version j) es (Status j) (Taxonomy j)
     (Summary j) (CreatedAt j) (UpdatedAt j).
Definition with_UpdatedAt (u : Go.Time) (j : t) : t :=
  mk (JournalID j) (UserID j) (Version j) (Entries j) (Status j) (Taxonomy j)
     (Summary j) (CreatedAt j) u.
End JournalEntry.

(** [interface{}]: the dynamic values that occur as context keys, as members
    of a [gin.H] and as members of a [bson.M]. *)
Inductive any : Type :=
| AnyNil
| AnyString (s : string)
| AnyInt (z : Z)
| AnyTime (t : Go.Time)
| AnyStrings (l : list string)
| AnyUser (u : User.t)
| AnyEntries (l : list Entry.t)
| AnyTaxonomy (t : Taxonomy.t).

(** What a handler hands to [c.JSON]. *)
Inductive Body : Type :=
| H (h : gmap string any)
| Journal (j : JournalEntry.t)
| Journals (l : list JournalEntry.t)
| EntryList (l : list Entry.t).

(** ** The world a request runs in *)

Record Env := {
  wall : nat -> Go.Time;
  fault : nat -> bool;
  uuid : nat -> string;
  ParseWithClaims : string -> option string;
  SplitHostPort : string -> option string;
  date_between : string -> string -> Go.Time -> bool
}.

Record World := mkWorld {
  journalCollection : list JournalEntry.t;
  usersCollection : list User.t;
  clock_reads : nat;
  round_trips : nat;
  ids_drawn : nat
}.

Inductive Res (A : Type) : Type :=
| Ret (a : A)
| Reply (code : Z) (body : Body)
| Panic (msg : string).

Arguments Ret {A} a.
Arguments Reply {A} code body.
Arguments Panic {A} msg.

(** A step of a handler: it goes on with a value, or the request is over
    (a reply was written and the handler returned, or it panicked). *)
Definition Act (A : Type) : Type := World -> Res A * World.

Definition ret {A} (a : A) : Act A := fun w => (Ret a, w).

Definition bind {A B} (m : Act A) (k : A -> Act B) : Act B :=
  fun w =>
    match m w with
    | (Ret a, w') => k a w'
    | (Reply code body, w') => (Reply code body, w')
    | (Panic msg, w') => (Panic msg, w')
    end.

Declare Scope act_scope.
Delimit Scope act_scope with act.
Notation "'let*' x := m 'in' k" := (bind m (fun x => k))
  (at level 10, x name, m at level 100, k at level 200) : act_scope.
Open Scope act_scope.

Definition panic {A} (msg : string) : Act A := fun w => (Panic msg, w).

Definition time_Now (env : Env) : Act Go.Time :=
  fun w =>
    (Ret (wall env (clock_reads w)),
     mkWorld (journalCollection w) (usersCollection w)
             (S (clock_reads w)) (round_trips w) (ids_drawn w)).

(** [utils.GenerateID]. *)
Definition GenerateID (env : Env) : Act string :=
  fun w =>
    (Ret (uuid env (ids_drawn w)),
     mkWorld (journalCollection w) (usersCollection w)
             (clock_reads w) (round_trips w) (S (ids_drawn w))).

Definition StatusOK : Z := 200.
Definition StatusCreated : Z := 201.
Definition StatusBadRequest : Z := 400.
Definition StatusUnauthorized : Z := 401.
Definition StatusNotFound : Z := 404.
Definition StatusInternalServerError : Z := 500.

(** ** [gin.Context] *)

Module gin.

(** The members of a JSON request body that some handler binds; a member
    that is absent has the zero value of its Go type. *)
Record Object := mkObject {
  o_version : Z;
  o_title : string;
  o_content : string;
  o_attachments : list string;
  o_updatedAt : Go.Time;
  o_status : string
}.

(** What a handler reads of a request. [Payload] is the body as the JSON
    decoder sees it: its error, or the object. *)
Record Context := mk {
  Host : string;
  Params : gmap string string;
  QueryArgs : gmap string string;
  Cookies : gmap string string;
  Payload : string + Object;
  Keys : gmap string any
}.

Definition Param (c : Context) (key : string) : string :=
  default EmptyString (Params c !! key).

Definition Query (c : Context) (key : string) : string :=
  default EmptyString (QueryArgs c !! key).

(** [c.Cookie]: [None] is [http.ErrNoCookie]. *)
Definition Cookie (c : Context) (name : string) : option string :=
  Cookies c !! name.

(** [c.Get]: the value and whether it exists. *)
Definition Get (c : Context) (key : string) : option any := Keys c !! key.

(** [c.Set]. *)
Definition SetKey (c : Context) (key : string) (value : any) : Context :=
  mk (Host c) (Params c) (QueryArgs c) (Cookies c) (Payload c)
     (<[key := value]> (Keys c)).

(** The engine hands every request a context without keys. *)
Definition reset (c : Context) : Context :=
  mk (Host c) (Params c) (QueryArgs c) (Cookies c) (Payload c) ∅.

(** [c.MustGet]. *)
Definition MustGet (c : Context) (key : string) : Act any :=
  match Get c key with
  | Some value => ret value
  | None => panic ("Key " +:+ Go.quote +:+ key +:+ Go.quote +:+ " does not exist")
  end.

(** The type assertion [v.(string)] in its one-result form. *)
Definition assert_string (v : any) : Act string :=
  match v with
  | AnyString s => ret s
  | _ => panic "interface conversion: interface {} is not string"
  end.

(** [c.JSON(code, obj)] followed by [return]; also
    [c.AbortWithStatusJSON]. *)
Definition JSON {A} (code : Z) (obj : Body) : Act A :=
  fun w => (Reply code obj, w).

Definition error (msg : string) : Body := H {["error" := AnyString msg]}.
Definition message (msg : string) : Body := H {["message" := AnyString msg]}.

(** [c.ShouldBindJSON] into an [Entry], into [struct{Version int}] and
    into [struct{Status string}]. *)
Definition ShouldBindJSON_Entry (c : Context) : string + Entry.t :=
  match Payload c with
  | inl err => inl err
  | inr o => inr (Entry.mk (o_version o) (o_title o) (o_content o)
                           (o_attachments o) (o_updatedAt o))
  end.

Definition ShouldBindJSON_Version (c : Context) : string + Z :=
  match Payload c with
  | inl err => inl err
  | inr o => inr (o_version o)
  end.

Definition ShouldBindJSON_Status (c : Context) : string + string :=
  match Payload c with
  | inl err => inl err
  | inr o => inr (o_status o)
  end.

End gin.

(** ** The document store: [bson.M] filters and updates, collection calls *)

Module bson.

(** A member of a filter: a value to be equal to (or, for an array field,
    to occur in), or the pair [{"$gte": lo, "$lte": hi}]. *)
Inductive Cond : Type :=
| Is (value : string)
| Range (gte lte : string).

End bson.

Module mongo.
Section collection.

Variable env : Env.

(** The stored field at a dotted bson path of a journal document. *)
Definition field (j : JournalEntry.t) (path : string) : option any :=
  if String.eqb path "journal_id" then Some (AnyString (JournalEntry.JournalID j))
  else if String.eqb path "user_id" then Some (AnyString (JournalEntry.UserID j))
  else if String.eqb path "version" then Some (AnyInt (JournalEntry.Version j))
  else if String.eqb path "entries" then Some (AnyEntries (JournalEntry.Entries j))
  else if String.eqb path "status" then Some (AnyString (JournalEntry.Status j))
  else if String.eqb path "taxonomy" then Some (AnyTaxonomy (JournalEntry.Taxonomy j))
  else if String.eqb path "taxonomy.categories"
    then Some (AnyStrings (Taxonomy.Categories (JournalEntry.Taxonomy j)))
  else if String.eqb path "taxonomy.subcategories"
    then Some (AnyStrings (Taxonomy.Subcategories (JournalEntry.Taxonomy j)))
  else if String.eqb path "taxonomy.topics"
    then Some (AnyStrings (Taxonomy.Topics (JournalEntry.Taxonomy j)))
  else if String.eqb path "taxonomy.tags"
    then Some (AnyStrings (Taxonomy.Tags (JournalEntry.Taxonomy j)))
  else if String.eqb path "summary" then Some (AnyString (JournalEntry.Summary j))
  else if String.eqb path "created_at" then Some (AnyTime (JournalEntry.CreatedAt j))
  else if String.eqb path "updated_at" then Some (AnyTime (JournalEntry.UpdatedAt j))
  else None.

(** One member of a filter against a document. A string matches a string
    field that equals it and an array field that contains it; a range of
    strings against a date is decided by the store ([date_between]). *)
Definition holds (j : JournalEntry.t) (path : string) (c : bson.Cond) : bool :=
  match c, field j path with
  | bson.Is s, Some (AnyString v) => bool_decide (v = s)
  | bson.Is s, Some (AnyStrings l) => bool_decide (s ∈ l)
  | bson.Range lo hi, Some (AnyTime t) => date_between env lo hi t
  | _, _ => false
  end.

(** A document matches a filter when every member holds. *)
Definition matches (filter : gmap string bson.Cond) (j : JournalEntry.t) : bool :=
  bool_decide (map_Forall (fun path c => holds j path c = true) filter).

(** [{"$set": upd}] on one document: a member named in [upd] takes the new
    value, every other member stays. The driver writes a [time.Time] as a
    BSON date, which has milliseconds and no more; here a time is kept as
    the handler holds it, so a time in the store stands for its value to
    the millisecond ([untimed] leaves the times out of a comparison). *)
Definition set_fields (upd : gmap string any) (j : JournalEntry.t) : JournalEntry.t :=
  JournalEntry.mk
    (match upd !! "journal_id" with Some (AnyString s) => s | _ => JournalEntry.JournalID j end)
    (match upd !! "user_id" with Some (AnyString s) => s | _ => JournalEntry.UserID j end)
    (match upd !! "version" with Some (AnyInt v) => v | _ => JournalEntry.Version j end)
    (match upd !! "entries" with Some (AnyEntries l) => l | _ => JournalEntry.Entries j end)
    (match upd !! "status" with Some (AnyString s) => s | _ => JournalEntry.Status j end)
    (match upd !! "taxonomy" with Some (AnyTaxonomy t) => t | _ => JournalEntry.Taxonomy j end)
    (match upd !! "summary" with Some (AnyString s) => s | _ => JournalEntry.Summary j end)
    (match upd !! "created_at" with Some (AnyTime t) => t | _ => JournalEntry.CreatedAt j end)
    (match upd !! "updated_at" with Some (AnyTime t) => t | _ => JournalEntry.UpdatedAt j end).

Fixpoint update_first {A} (p : A -> bool) (f : A -> A) (l : list A) : list A :=
  match l with
  | [] => []
  | x :: l' => if p x then f x :: l' else x :: update_first p f l'
  end.

Fixpoint delete_first {A} (p : A -> bool) (l : list A) : list A :=
  match l with
  | [] => []
  | x :: l' => if p x then l' else x :: delete_first p l'
  end.

(** One round trip to the store; [false] when the driver returns an
    error. *)
Definition round_trip : Act bool :=
  fun w =>
    (Ret (negb (fault env (round_trips w))),
     mkWorld (journalCollection w) (usersCollection w)
             (clock_reads w) (S (round_trips w)) (ids_drawn w)).

Definition journals : Act (list JournalEntry.t) :=
  fun w => (Ret (journalCollection w), w).

Definition put_journals (docs : list JournalEntry.t) : Act unit :=
  fun w =>
    (Ret tt,
     mkWorld docs (usersCollection w) (clock_reads w) (round_trips w) (ids_drawn w)).

(** [FindOne(ctx, filter).Decode(&doc)]: [None] is a non-nil [err]
    ([mongo.ErrNoDocuments] or a driver error). *)
Definition FindOne (filter : gmap string bson.Cond) : Act (option JournalEntry.t) :=
  let* ok := round_trip in
  if ok then
    let* docs := journals in
    ret (List.find (matches filter) docs)
  else ret None.

(** [InsertOne]; the result is [err == nil]. *)
Definition InsertOne (doc : JournalEntry.t) : Act bool :=
  let* ok := round_trip in
  if ok then
    let* docs := journals in
    let* _ := put_journals (docs ++ [doc]) in
    ret true
  else ret false.

(** [UpdateOne(ctx, filter, {"$set": upd})]; no match is not an error. *)
Definition UpdateOne (filter : gmap string bson.Cond) (upd : gmap string any) : Act bool :=
  let* ok := round_trip in
  if ok then
    let* docs := journals in
    let* _ := put_journals (update_first (matches filter) (set_fields upd) docs) in
    ret true
  else ret false.

(** [DeleteOne]; no match is not an error. *)
Definition DeleteOne (filter : gmap string bson.Cond) : Act bool :=
  let* ok := round_trip in
  if ok then
    let* docs := journals in
    let* _ := put_journals (delete_first (matches filter) docs) in
    ret true
  else ret false.

(** [Find] and then [cursor.All]: two fallible calls. The outer [None] is
    the error of [Find], the inner one that of [cursor.All]. *)
Definition Find (filter : gmap string bson.Cond)
  : Act (option (option (list JournalEntry.t))) :=
  let* ok := round_trip in
  if ok then
    let* docs := journals in
    let* ok' := round_trip in
    if ok' then ret (Some (Some (List.filter (matches filter) docs)))
    else ret (Some None)
  else ret None.

(** [usersCollection.FindOne(ctx, bson.M{"_id": id}).Decode(&user)]. *)
Definition FindUser (id : string) : Act (option User.t) :=
  let* ok := round_trip in
  if ok then
    fun w => (Ret (List.find (fun u => bool_decide (User.ID u = id)) (usersCollection w)), w)
  else ret None.

End collection.
End mongo.

(** ** [main.extractIdentifierMiddleware] and [auth.AuthMiddleware]

    A middleware takes the context to the context the rest of the chain
    sees ([c.Next()]), or ends the request ([c.AbortWithStatusJSON]). *)

Module main.
Section middleware.

Variable env : Env.

Definition extractSubdomain (host : string) : string :=
  let hostname :=
    match SplitHostPort env host with
    | Some h => h
    | None => host
    end in
  let parts := Go.Split hostname "."%char in
  if bool_decide (2 < length parts)%nat
  then match parts with p :: _ => p | [] => EmptyString end
  else EmptyString.

Definition extractIdentifierMiddleware (c : gin.Context) : Act gin.Context :=
  let host := gin.Host c in
  let subdomain := extractSubdomain host in
  let email := gin.Param c "email" in
  if negb (bool_decide (subdomain = EmptyString))
  then ret (gin.SetKey c "identifier" (AnyString subdomain))
  else if negb (bool_decide (email = EmptyString))
  then ret (gin.SetKey c "identifier" (AnyString email))
  else ret c.

End middleware.
End main.

Module auth.
Section middleware.

Variable env : Env.

Definition not_authenticated (required : bool) (c : gin.Context) : Act gin.Context :=
  if required
  then gin.JSON StatusUnauthorized (gin.error "Not authenticated")
  else ret c.

Definition AuthMiddleware (required : bool) (c : gin.Context) : Act gin.Context :=
  match gin.Cookie c "token" with
  | None => not_authenticated required c
  | Some token =>
      match ParseWithClaims env token with
      | None => not_authenticated required c
      | Some claims_Id =>
          let* found := mongo.FindUser env claims_Id in
          match found with
          | None => not_authenticated required c
          | Some user => ret (gin.SetKey c "user" (AnyUser user))
          end
      end
  end.

End middleware.
End auth.

(** ** Package [journal] *)

Module journal.
Section handlers.

Variable env : Env.

Definition owner_filter (journalID userID : string) : gmap string bson.Cond :=
  <["user_id" := bson.Is userID]> {["journal_id" := bson.Is journalID]}.

Definition id_filter (journalID : string) : gmap string bson.Cond :=
  {["journal_id" := bson.Is journalID]}.

Definition CreateJournalEntry (c : gin.Context) : Act unit :=
  match gin.Get c "user" with
  | None => gin.JSON StatusUnauthorized (gin.error "User not authenticated")
  | Some (AnyUser userStruct) =>
      match gin.ShouldBindJSON_Entry c with
      | inl err => gin.JSON StatusBadRequest (gin.error err)
      | inr newEntry =>
          let* id := GenerateID env in
          let* createdAt := time_Now env in
          let* updatedAt := time_Now env in
          let journalEntry :=
            JournalEntry.mk id (User.ID userStruct) 1 [newEntry] "pending"
                            Taxonomy.zero EmptyString createdAt updatedAt in
          let* ok := mongo.InsertOne env journalEntry in
          if ok then gin.JSON StatusCreated (Journal journalEntry)
          else gin.JSON StatusInternalServerError (gin.error "Error creating journal entry")
      end
  | Some _ =>
      gin.JSON StatusInternalServerError (gin.error "Failed to parse user information")
  end.

Definition UpdateJournalEntry (c : gin.Context) : Act unit :=
  let journalID := gin.Param c "journalid" in
  let* v := gin.MustGet c "userID" in
  let* userID := gin.assert_string v in
  match gin.ShouldBindJSON_Entry c with
  | inl err => gin.JSON StatusBadRequest (gin.error err)
  | inr updatedEntry =>
      let* found := mongo.FindOne env (owner_filter journalID userID) in
      match found with
      | None => gin.JSON StatusNotFound (gin.error "Journal entry not found")
      | Some journal =>
          let updatedEntry :=
            Entry.with_Version (Go.add (JournalEntry.Version journal) 1) updatedEntry in
          let* now := time_Now env in
          let updatedEntry := Entry.with_UpdatedAt now updatedEntry in
          let journal :=
            JournalEntry.with_Entries (JournalEntry.Entries journal ++ [updatedEntry]) journal in
          let journal := JournalEntry.with_Version (Entry.Version updatedEntry) journal in
          let* now' := time_Now env in
          let journal := JournalEntry.with_UpdatedAt now' journal in
          let* ok :=
            mongo.UpdateOne env (owner_filter journalID userID)
              (<["updated_at" := AnyTime (JournalEntry.UpdatedAt journal)]>
               (<["version" := AnyInt (JournalEntry.Version journal)]>
                {["entries" := AnyEntries (JournalEntry.Entries journal)]})) in
          if ok then gin.JSON StatusOK (Journal journal)
          else gin.JSON StatusInternalServerError (gin.error "Error updating journal entry")
      end
  end.

Definition GetJournalMeta (c : gin.Context) : Act unit :=
  let journalID := gin.Param c "journalid" in
  let* found := mongo.FindOne env (id_filter journalID) in
  match found with
  | None => gin.JSON StatusNotFound (gin.error "Journal entry not found")
  | Some journal =>
      let meta : gmap string any :=
        <["userID" := AnyString (JournalEntry.UserID journal)]>
        (<["status" := AnyString (JournalEntry.Status journal)]>
         (<["version" := AnyInt (JournalEntry.Version journal)]>
          (<["updatedAt" := AnyTime (JournalEntry.UpdatedAt journal)]>
           {["createdAt" := AnyTime (JournalEntry.CreatedAt journal)]}))) in
      gin.JSON StatusOK (H meta)
  end.

Definition ProcessJournalEntry (c : gin.Context) : Act unit :=
  let journalID := gin.Param c "journalid" in
  let* v := gin.MustGet c "userID" in
  let* userID := gin.assert_string v in
  let* ok :=
    mongo.UpdateOne env (owner_filter journalID userID)
      {["status" := AnyString "processing"]} in
  if ok then gin.JSON StatusOK (gin.message "Journal entry is being processed")
  else gin.JSON StatusInternalServerError (gin.error "Error processing journal entry").

Definition GetJournalVersions (c : gin.Context) : Act unit :=
  let journalID := gin.Param c "journalid" in
  let* found := mongo.FindOne env (id_filter journalID) in
  match found with
  | None => gin.JSON StatusNotFound (gin.error "Journal entry not found")
  | Some journal => gin.JSON StatusOK (EntryList (JournalEntry.Entries journal))
  end.

(** [for _, entry := range entries { if entry.Version == version { hit;
    return } }; miss]. *)
Fixpoint range_entries (entries : list Entry.t) (version : Z)
    (hit miss : Act unit) : Act unit :=
  match entries with
  | [] => miss
  | entry :: rest =>
      if (Entry.Version entry =? version)%Z then hit
      else range_entries rest version hit miss
  end.

Definition SetJournalVersion (c : gin.Context) : Act unit :=
  let journalID := gin.Param c "journalid" in
  let* v := gin.MustGet c "userID" in
  let* userID := gin.assert_string v in
  match gin.ShouldBindJSON_Version c with
  | inl err => gin.JSON StatusBadRequest (gin.error err)
  | inr version =>
      let* found := mongo.FindOne env (owner_filter journalID userID) in
      match found with
      | None => gin.JSON StatusNotFound (gin.error "Journal entry not found")
      | Some journal =>
          range_entries (JournalEntry.Entries journal) version
            (let journal := JournalEntry.with_Version version journal in
             let* now := time_Now env in
             let journal := JournalEntry.with_UpdatedAt now journal in
             let* ok :=
               mongo.UpdateOne env (owner_filter journalID userID)
                 (<["updated_at" := AnyTime (JournalEntry.UpdatedAt journal)]>
                  {["version" := AnyInt (JournalEntry.Version journal)]}) in
             if ok then gin.JSON StatusOK (Journal journal)
             else gin.JSON StatusInternalServerError
                    (gin.error "Error setting journal version"))
            (gin.JSON StatusBadRequest (gin.error "Version not found"))
      end
  end.

Definition SetJournalStatus (c : gin.Context) : Act unit :=
  let journalID := gin.Param c "journalid" in
  let* v := gin.MustGet c "userID" in
  let* userID := gin.assert_string v in
  match gin.ShouldBindJSON_Status c with
  | inl err => gin.JSON StatusBadRequest (gin.error err)
  | inr status =>
      let* now := time_Now env in
      let* ok :=
        mongo.UpdateOne env (owner_filter journalID userID)
          (<["updated_at" := AnyTime now]> {["status" := AnyString status]}) in
      if ok then gin.JSON StatusOK (gin.message "Journal status updated")
      else gin.JSON StatusInternalServerError (gin.error "Error setting journal status")
  end.

(** [exists && user != nil] *)
Definition identity_present (c : gin.Context) : bool :=
  match gin.Get c "user" with
  | Some AnyNil => false
  | Some _ => true
  | None => false
  end.

Definition GetJournalEntry (c : gin.Context) : Act unit :=
  let journalID := gin.Param c "journalid" in
  let* found := mongo.FindOne env (id_filter journalID) in
  match found with
  | None => gin.JSON StatusNotFound (gin.error "Journal entry not found")
  | Some journal =>
      if identity_present c then
        let meta : gmap string any :=
          <["summary" := AnyString (JournalEntry.Summary journal)]>
          (<["taxonomy" := AnyTaxonomy (JournalEntry.Taxonomy journal)]>
           (<["entries" := AnyEntries (JournalEntry.Entries journal)]>
            (<["userID" := AnyString (JournalEntry.UserID journal)]>
             (<["status" := AnyString (JournalEntry.Status journal)]>
              (<["version" := AnyInt (JournalEntry.Version journal)]>
               (<["updatedAt" := AnyTime (JournalEntry.UpdatedAt journal)]>
                {["createdAt" := AnyTime (JournalEntry.CreatedAt journal)]})))))) in
        gin.JSON StatusOK (H meta)
      else
        let entries := JournalEntry.Entries journal in
        let latestEntry : list Entry.t :=
          if bool_decide (0 < length entries)%nat
          then match entries !! (length entries - 1)%nat with
               | Some e => [] ++ [e]
               | None => []
               end
          else [] in
        gin.JSON StatusOK
          (H (<["entries" := AnyEntries latestEntry]>
              (<["summary" := AnyString (JournalEntry.Summary journal)]>
               (<["taxonomy" := AnyTaxonomy (JournalEntry.Taxonomy journal)]>
                (<["status" := AnyString (JournalEntry.Status journal)]>
                 (<["version" := AnyInt (JournalEntry.Version journal)]>
                  (<["userID" := AnyString (JournalEntry.UserID journal)]>
                   {["journalID" := AnyString (JournalEntry.JournalID journal)]})))))))
  end.

(** [filter[key] = value] when the query parameter is not empty. *)
Definition with_param (key value : string) (filter : gmap string bson.Cond)
  : gmap string bson.Cond :=
  if negb (bool_decide (value = EmptyString))
  then <[key := bson.Is value]> filter
  else filter.

Definition public_filter (c : gin.Context) : gmap string bson.Cond :=
  let filter : gmap string bson.Cond := {["status" := bson.Is "public"]} in
  let startDate := gin.Query c "start" in
  let endDate := gin.Query c "end" in
  let category := gin.Query c "category" in
  let subcategory := gin.Query c "subcategory" in
  let topic := gin.Query c "topic" in
  let tag := gin.Query c "tag" in
  let user := gin.Query c "user" in
  let filter :=
    if negb (bool_decide (startDate = EmptyString))
       && negb (bool_decide (endDate = EmptyString))
    then <["created_at" := bson.Range startDate endDate]> filter
    else filter in
  let filter := with_param "taxonomy.categories" category filter in
  let filter := with_param "taxonomy.subcategories" subcategory filter in
  let filter := with_param "taxonomy.topics" topic filter in
  let filter := with_param "taxonomy.tags" tag filter in
  let filter := with_param "user_id" user filter in
  filter.

Definition GetPublicJournals (c : gin.Context) : Act unit :=
  let* cursor := mongo.Find env (public_filter c) in
  match cursor with
  | None =>
      gin.JSON StatusInternalServerError (gin.error "Error retrieving journal entries")
  | Some None =>
      gin.JSON StatusInternalServerError (gin.error "Error parsing journal entries")
  | Some (Some journals) => gin.JSON StatusOK (Journals journals)
  end.

Definition GetUserJournals (c : gin.Context) : Act unit :=
  let userID := gin.Param c "userid" in
  let* cursor := mongo.Find env {["user_id" := bson.Is userID]} in
  match cursor with
  | None =>
      gin.JSON StatusInternalServerError (gin.error "Error retrieving journal entries")
  | Some None =>
      gin.JSON StatusInternalServerError (gin.error "Error parsing journal entries")
  | Some (Some journals) => gin.JSON StatusOK (Journals journals)
  end.

Definition DeleteJournalEntry (c : gin.Context) : Act unit :=
  let journalID := gin.Param c "journalid" in
  let* v := gin.MustGet c "userID" in
  let* userID := gin.assert_string v in
  let* ok := mongo.DeleteOne env (owner_filter journalID userID) in
  if ok then gin.JSON StatusOK (gin.message "Journal entry deleted")
  else gin.JSON StatusInternalServerError (gin.error "Error deleting journal entry").

(** [InitializeRoutes]: the routes of the group, which of them sit behind
    [auth.AuthMiddleware(db, db_name, true)], and their handlers. *)
Inductive Route : Type :=
| GET_root | GET_user | GET_journal | GET_meta
| POST_root | PUT_journal | PUT_process | GET_versions
| PUT_version | PUT_status | DELETE_journal.

Definition protected (r : Route) : bool :=
  match r with
  | GET_root | GET_user | GET_journal | GET_meta => false
  | _ => true
  end.

Definition handler (r : Route) : gin.Context -> Act unit :=
  match r with
  | GET_root => GetPublicJournals
  | GET_user => GetUserJournals
  | GET_journal => GetJournalEntry
  | GET_meta => GetJournalMeta
  | POST_root => CreateJournalEntry
  | PUT_journal => UpdateJournalEntry
  | PUT_process => ProcessJournalEntry
  | GET_versions => GetJournalVersions
  | PUT_version => SetJournalVersion
  | PUT_status => SetJournalStatus
  | DELETE_journal => DeleteJournalEntry
  end.

(** A request on route [r]: the engine's middleware ([router.Use] in
    [main]), the group's middleware, then the handler. *)
Definition serve (r : Route) (c : gin.Context) : Act unit :=
  let c := gin.reset c in
  let* c := main.extractIdentifierMiddleware env c in
  let* c := (if protected r then auth.AuthMiddleware env true c else ret c) in
  handler r c.

End handlers.
End journal.

(** ** The router of [main] *)

Module router.





End router.

(** ** Package [profile]: the two image stores *)

Module profile.

(** A [multipart.File]: the bytes of the upload, and after how many of
    them a read fails, if it does. *)
Record File := mkFile {
  data : list Byte.byte;
  broken_at : option nat
}.

(** What [SaveImage] acts on: the process environment, the local file
    system (contents by path, and whether [os.Create] succeeds at a path)
    and the object store (contents by bucket and key, and whether
    [PutObject] gets through). *)
Record System := mkSystem {
  environ : gmap string string;
  files : gmap string (list Byte.byte);
  creatable : string -> bool;
  objects : gmap (string * string) (list Byte.byte);
  s3_up : bool
}.

Definition Getenv (sys : System) (key : string) : string :=
  default EmptyString (environ sys !! key).

(** [os.Create(path)] and then [io.Copy(out, file)]: the file is created
    or truncated, and holds what could be read. [None] is the error of
    [os.Create], [Some false] that of [io.Copy]. *)
Definition create_and_copy (path : string) (file : File) (sys : System)
  : option bool * System :=
  if creatable sys path then
    match broken_at file with
    | None =>
        (Some true,
         mkSystem (environ sys) (<[path := data file]> (files sys))
                  (creatable sys) (objects sys) (s3_up sys))
    | Some n =>
        (Some false,
         mkSystem (environ sys) (<[path := take n (data file)]> (files sys))
                  (creatable sys) (objects sys) (s3_up sys))
    end
  else (None, sys).

(** [Client.PutObject]: the object is there once the whole body went
    through; [false] is a non-nil [err]. *)
Definition PutObject (bucket key : string) (body : File) (sys : System)
  : bool * System :=
  if s3_up sys then
    match broken_at body with
    | None =>
        (true,
         mkSystem (environ sys) (files sys) (creatable sys)
                  (<[(bucket, key) := data body]> (objects sys)) (s3_up sys))
    | Some _ => (false, sys)
    end
  else (false, sys).

(** The interface [ImageStore]; [None] is a non-nil [err]. *)
Class ImageStore (S : Type) := {
  SaveImage : S -> string -> string -> File -> System -> option string * System
}.

Record LocalImageStore := mkLocal { BasePath : string }.
Record S3ImageStore := mkS3 { BucketName : string }.

(** [fmt.Sprintf("%s-%s", userID, filename)] *)
Definition imageName (userID filename : string) : string :=
  userID +:+ "-" +:+ filename.

Section local.

(** [filepath.Join] of two elements. *)
Variable Join : string -> string -> string.

Definition LocalImageStore_SaveImage (l : LocalImageStore)
    (userID filename : string) (file : File) (sys : System)
  : option string * System :=
  let imageName := imageName userID filename in
  let imagePath := Join (BasePath l) imageName in
  match create_and_copy imagePath file sys with
  | (None, sys') => (None, sys')
  | (Some false, sys') => (None, sys')
  | (Some true, sys') => (Some ("/images/" +:+ imageName), sys')
  end.

#[local] Instance LocalImageStore_store : ImageStore LocalImageStore :=
  {| SaveImage := LocalImageStore_SaveImage |}.

End local.

Definition S3ImageStore_SaveImage (s : S3ImageStore)
    (userID filename : string) (file : File) (sys : System)
  : option string * System :=
  let imageName := imageName userID filename in
  match PutObject (BucketName s) imageName file sys with
  | (false, sys') => (None, sys')
  | (true, sys') =>
      let endpoint := Getenv sys' "AWS_S3_ENDPOINT" in
      if negb (bool_decide (endpoint = EmptyString)) then
        let publicEndpoint :=
          if Go.Contains endpoint "localstack"
          then Go.Replace1 endpoint "localstack" "localhost"
          else endpoint in
        (Some (publicEndpoint +:+ "/" +:+ BucketName s +:+ "/" +:+ imageName), sys')
      else
        let region := Getenv sys' "AWS_REGION" in
        (Some ("https://" +:+ BucketName s +:+ ".s3." +:+ region
               +:+ ".amazonaws.com/" +:+ imageName), sys')
  end.

#[local] Instance S3ImageStore_store : ImageStore S3ImageStore :=
  {| SaveImage := S3ImageStore_SaveImage |}.

(** *** The contract of the specification

    [store(ownerID, filename, binaryStream) -> URL], the blob named
    [{ownerID}-{filename}], a collision overwrites. [blob_at] says where a
    backend keeps the blob of a name, [ready] that the backend takes a
    write of that name. [satisfies_contract] is the contract without the
    word retrievable: the blob is kept under the name and the URL ends in
    it. What the URL leads to is [retrievable_here] and [s3_locates]. *)

Definition ends_with (s suffix : string) : Prop :=
  exists front, s = front +:+ suffix.

Definition spec_name (ownerID filename : string) : string :=
  ownerID +:+ "-" +:+ filename.




Definition local_blob_at (Join : string -> string -> string)
    (l : LocalImageStore) (name : string) (sys : System) : option (list Byte.byte) :=
  files sys !! Join (BasePath l) name.


Definition s3_blob_at (s : S3ImageStore) (name : string) (sys : System)
  : option (list Byte.byte) :=
  objects sys !! (BucketName s, name).


End profile.

(** ** Runs of requests, and the requests the properties speak of *)

(** The store after the append requests [cs], served one after the other. *)
Definition appends (env : Env) (cs : list gin.Context) (w : World) : World :=
  fold_left (fun w c => snd (journal.UpdateJournalEntry env c w)) cs w.

(** A request on journal [journalID] whose context names [userID] as the
    owner (the key the mutating handlers read) and whose body decodes. *)
Definition owner_request (journalID userID : string) (c : gin.Context) : Prop :=
  gin.Param c "journalid" = journalID
  /\ gin.Get c "userID" = Some (AnyString userID)
  /\ exists o, gin.Payload c = inr o.

(** Entry [i] carries version [i + 1]. *)
Definition numbered_from (start : nat) (entries : list Entry.t) : Prop :=
  forall (i : nat) (e : Entry.t),
    (start <= i)%nat -> entries !! i = Some e -> Entry.Version e = (Z.of_nat i + 1)%Z.

(** The routes whose handlers read the key ["userID"]. *)
Definition owner_mutation (r : journal.Route) : bool :=
  match r with
  | journal.PUT_journal | journal.PUT_process | journal.PUT_version
  | journal.PUT_status | journal.DELETE_journal => true
  | _ => false
  end.

(** The part of a route before its handler. *)
Definition before_handler (env : Env) (r : journal.Route) (c : gin.Context)
  : Act gin.Context :=
  let* c := main.extractIdentifierMiddleware env (gin.reset c) in
  if journal.protected r then auth.AuthMiddleware env true c else ret c.

Definition missing_key (key : string) : string :=
  "Key " +:+ Go.quote +:+ key +:+ Go.quote +:+ " does not exist".

(** What a run of appends keeps: the aggregate is the first match of the
    owner filter, its pointer is the number of its entries, and its entries
    from the second on are numbered by position. *)
Definition tracked (env : Env) (journalID userID : string) (n : nat) (w : World) : Prop :=
  exists before j after,
    journalCollection w = before ++ j :: after
    /\ List.find (mongo.matches env (journal.owner_filter journalID userID)) before = None
    /\ mongo.matches env (journal.owner_filter journalID userID) j = true
    /\ JournalEntry.Version j = Z.of_nat n
    /\ length (JournalEntry.Entries j) = n
    /\ numbered_from 1 (JournalEntry.Entries j).

(** [SetJournalStatus] on one document. *)
Definition retag (status : string) (now : Go.Time) (j : JournalEntry.t) : JournalEntry.t :=
  JournalEntry.mk (JournalEntry.JournalID j) (JournalEntry.UserID j)
    (JournalEntry.Version j) (JournalEntry.Entries j) status (JournalEntry.Taxonomy j)
    (JournalEntry.Summary j) (JournalEntry.CreatedAt j) now.



(** ** Concrete requests and stores *)

Module sample.

Definition env : Env := {|
  wall := fun n => (1700000000 + Z.of_nat n)%Z;
  fault := fun _ => false;
  uuid := fun n => String (ascii_of_nat (48 + n)) "-4f6c";
  ParseWithClaims := fun token => if decide (token = "signed-u1") then Some "u1" else None;
  SplitHostPort := fun _ => None;
  date_between := fun _ _ _ => false
|}.

Definition ann : User.t := User.mk "u1" "Ann" "ann@example.org" "$2a$10$hash".

Definition empty_store : World := mkWorld [] [ann] 0 0 0.

(** [{"version": v, "title": title, "content": "..."}] *)
Definition body (v : Z) (title : string) : gin.Object :=
  gin.mkObject v title "..." [] Go.zeroTime EmptyString.

Definition request (keys : gmap string any) (journalID : string) (o : gin.Object)
  : gin.Context :=
  gin.mk "localhost:8080" {["journalid" := journalID]} ∅ ∅ (inr o) keys.

Definition as_user : gmap string any := {["user" := AnyUser ann]}.
Definition as_owner : gmap string any := {["userID" := AnyString "u1"]}.

(** [POST /journal] with [{"title": "Day 1", "content": "..."}]. *)
Definition create_day1 : gin.Context := request as_user EmptyString (body 0 "Day 1").

(** The same, the client sending ["version": 1] along. *)
Definition create_day1_v1 : gin.Context := request as_user EmptyString (body 1 "Day 1").

Definition append_ (title : string) : gin.Context :=
  request as_owner "0-4f6c" (body 0 title).

Definition repoint (v : Z) : gin.Context :=
  request as_owner "0-4f6c" (body v EmptyString).

(** create, append, repoint to version 1, append *)
Definition after_repoint_and_append : World :=
  let w := snd (journal.CreateJournalEntry env create_day1_v1 empty_store) in
  let w := snd (journal.UpdateJournalEntry env (append_ "Day 2") w) in
  let w := snd (journal.SetJournalVersion env (repoint 1) w) in
  snd (journal.UpdateJournalEntry env (append_ "Day 3") w).

Definition v (n : Z) (title : string) : Entry.t :=
  Entry.mk n title "..." [] (1700000000 + n)%Z.

(** A journal with entries [v1, v2, v3] whose pointer is 1. *)
Definition three_versions : JournalEntry.t :=
  JournalEntry.mk "j-1" "u1" 1 [v 1 "Day 1"; v 2 "Day 2"; v 3 "Day 3"] "public"
    (Taxonomy.mk ["travel"] [] [] ["sea"]) "a week away" 1700000000%Z 1700000009%Z.

Definition draft : JournalEntry.t :=
  JournalEntry.mk "j-2" "u1" 1 [v 1 "Draft"] "pending" Taxonomy.zero EmptyString
    1700000010%Z 1700000010%Z.

Definition store : World := mkWorld [three_versions; draft] [ann] 0 0 2.

(** A request with the cookie of a registered user. *)
Definition with_cookie (journalID : string) (o : gin.Object) : gin.Context :=
  gin.mk "localhost:8080" {["journalid" := journalID]} ∅ {["token" := "signed-u1"]}
         (inr o) ∅.

(** [POST /journal] with the cookie of [ann] and the body
    [{"title": "Day 1", "content": "..."}], as the engine receives it. *)
Definition post_day1 : gin.Context :=
  gin.mk "localhost:8080" ∅ ∅ {["token" := "signed-u1"]} (inr (body 0 "Day 1")) ∅.

(** [DELETE /journal/j-9], a journal that is not stored. *)
Definition delete_unknown : gin.Context := request as_owner "j-9" (body 0 EmptyString).

Definition delete_j1 : gin.Context := request as_owner "j-1" (body 0 EmptyString).

(** [PUT /journal/j-2/status] with [{"status": "archived"}]. *)
Definition set_status_archived : gin.Context :=
  request as_owner "j-2" (gin.mkObject 0 EmptyString EmptyString [] Go.zeroTime "archived").


Definition read_j1 (keys : gmap string any) : gin.Context :=
  request keys "j-1" (body 0 EmptyString).

Definition photo (bytes : list Byte.byte) : profile.File := profile.mkFile bytes None.

Definition machine : profile.System :=
  profile.mkSystem {["AWS_S3_ENDPOINT" := "http://localstack:4566"]} ∅ (fun _ => true) ∅ true.

Definition join (dir name : string) : string := dir +:+ "/" +:+ name.

End sample.

(** ** Views of an aggregate *)


(** An aggregate without its times, those of its entries included: what a
    stored document and a value held in memory are compared by. *)
Definition untimed (j : JournalEntry.t) : JournalEntry.t :=
  JournalEntry.mk (JournalEntry.JournalID j) (JournalEntry.UserID j)
    (JournalEntry.Version j)
    (List.map (Entry.with_UpdatedAt Go.zeroTime) (JournalEntry.Entries j))
    (JournalEntry.Status j) (JournalEntry.Taxonomy j) (JournalEntry.Summary j)
    Go.zeroTime Go.zeroTime.

(** ** What the further properties speak of *)

(** The documents that are not journal [journalID] of owner [userID]. *)
Definition elsewhere (journalID userID : string) (docs : list JournalEntry.t)
  : list JournalEntry.t :=
  List.filter
    (fun j => negb (bool_decide (JournalEntry.JournalID j = journalID
                                 /\ JournalEntry.UserID j = userID)))
    docs.

(** [ProcessJournalEntry] on one document. *)
Definition mark_processing (j : JournalEntry.t) : JournalEntry.t :=
  JournalEntry.mk (JournalEntry.JournalID j) (JournalEntry.UserID j)
    (JournalEntry.Version j) (JournalEntry.Entries j) "processing" (JournalEntry.Taxonomy j)
    (JournalEntry.Summary j) (JournalEntry.CreatedAt j) (JournalEntry.UpdatedAt j).

(** The entry [UpdateJournalEntry] appends for the body [o] when the pointer
    is [pointer] and the clock reads [now]. *)
Definition appended_entry (o : gin.Object) (pointer : Z) (now : Go.Time) : Entry.t :=
  Entry.mk (Go.add pointer 1) (gin.o_title o) (gin.o_content o) (gin.o_attachments o) now.

(** What the query parameters of the public listing ask of a journal. *)
Definition asked_for (env : Env) (c : gin.Context) (j : JournalEntry.t) : Prop :=
  JournalEntry.Status j = "public"
  /\ (gin.Query c "start" <> EmptyString -> gin.Query c "end" <> EmptyString ->
      date_between env (gin.Query c "start") (gin.Query c "end")
        (JournalEntry.CreatedAt j) = true)
  /\ (gin.Query c "category" <> EmptyString ->
      gin.Query c "category" ∈ Taxonomy.Categories (JournalEntry.Taxonomy j))
  /\ (gin.Query c "subcategory" <> EmptyString ->
      gin.Query c "subcategory" ∈ Taxonomy.Subcategories (JournalEntry.Taxonomy j))
  /\ (gin.Query c "topic" <> EmptyString ->
      gin.Query c "topic" ∈ Taxonomy.Topics (JournalEntry.Taxonomy j))
  /\ (gin.Query c "tag" <> EmptyString ->
      gin.Query c "tag" ∈ Taxonomy.Tags (JournalEntry.Taxonomy j))
  /\ (gin.Query c "user" <> EmptyString ->
      JournalEntry.UserID j = gin.Query c "user").

(** How often [sep] occurs in [s]. *)
Fixpoint occurrences (sep : Ascii.ascii) (s : string) : nat :=
  match s with
  | EmptyString => 0
  | String a s' => (if Ascii.eqb a sep then 1 else 0) + occurrences sep s'
  end.

(** The part of [s] before the first [sep]. *)
Fixpoint up_to (sep : Ascii.ascii) (s : string) : string :=
  match s with
  | EmptyString => EmptyString
  | String a s' => if Ascii.eqb a sep then EmptyString else String a (up_to sep s')
  end.

(** ** The handlers that make one call on a collection of their own

    Package [profile] ([profile.go]) and package [qualifications]. Each
    handler makes at most one call on its collection, so whether the driver
    answers is the flag [db_ok] of the request. *)

(** [UpdateOne(ctx, filter, {"$set": ...}, options.Update().SetUpsert(true))]:
    the first match is updated; without a match the document made of the
    filter and the set members is inserted. *)
Definition upsert_first {A} (p : A -> bool) (f : A -> A) (fresh : A) (l : list A) : list A :=
  if existsb p l then mongo.update_first p f l else l ++ [fresh].

Module Profile.
(** A nil pointer is [None]; in the store it is a null member. *)
Record t := mk {
  UserID : string;
  Name : option string;
  Email : option string;
  Number : option string;
  Bio : option string;
  ProfileImg : option string;
  Interests : option string;
  Domain : option string
}.

Definition with_UserID (u : string) (p : t) : t :=
  mk u (Name p) (Email p) (Number p) (Bio p) (ProfileImg p) (Interests p) (Domain p).
Definition with_ProfileImg (img : option string) (p : t) : t :=
  mk (UserID p) (Name p) (Email p) (Number p) (Bio p) img (Interests p) (Domain p).

(** The document an upsert makes of [{"user_id": u}] and
    [{"profile_img": url}]. *)
Definition of_image (u url : string) : t :=
  mk u None None None None (Some url) None None.
End Profile.

Module profiles.

Inductive Answer : Type :=
| Sent (code : Z) (h : gmap string any)
| SentProfile (code : Z) (p : Profile.t)
| Panicked (msg : string).

(** The value of the variable [imageStore]. *)
Inductive ImageStoreValue : Type :=
| Local (l : profile.LocalImageStore)
| S3 (s : profile.S3ImageStore).

Record State := mkState {
  profilesCollection : list Profile.t;
  system : profile.System
}.

Definition error (msg : string) : gmap string any := {["error" := AnyString msg]}.
Definition message (msg : string) : gmap string any := {["message" := AnyString msg]}.

Definition by_user (userID : string) (p : Profile.t) : bool :=
  bool_decide (Profile.UserID p = userID).

Section handlers.

Variable Join : string -> string -> string.

(** [imageStore.SaveImage], by the dynamic type of the value. *)
Definition SaveImage (store : ImageStoreValue) (userID filename : string)
    (file : profile.File) (sys : profile.System) : option string * profile.System :=
  match store with
  | Local l =>
      profile.SaveImage (ImageStore := profile.LocalImageStore_store Join)
        l userID filename file sys
  | S3 s =>
      profile.SaveImage (ImageStore := profile.S3ImageStore_store) s userID filename file sys
  end.

Definition GetProfile (c : gin.Context) (db_ok : bool) (st : State) : Answer * State :=
  let userID := gin.Param c "userid" in
  match (if db_ok then List.find (by_user userID) (profilesCollection st) else None) with
  | None => (Sent StatusInternalServerError (error "Could not retrieve profile"), st)
  | Some profile => (SentProfile StatusOK profile, st)
  end.

(** [form] is the multipart form of the request: under a field name, the
    file name of the part and what [fileHeader.Open()] gives ([None]: its
    error). *)
Definition PutImage (imageStore : option ImageStoreValue) (c : gin.Context)
    (form : gmap string (string * option profile.File)) (db_ok : bool) (st : State)
  : Answer * State :=
  let userID := gin.Param c "userid" in
  match form !! "profileImage" with
  | None => (Sent StatusBadRequest (error "Profile image not found"), st)
  | Some (Filename, None) =>
      (Sent StatusInternalServerError (error "Could not open image"), st)
  | Some (Filename, Some file) =>
      match imageStore with
      | None => (Sent StatusInternalServerError (error "Image store not initialized"), st)
      | Some store =>
          match SaveImage store userID Filename file (system st) with
          | (None, sys) =>
              (Sent StatusInternalServerError (error "Could not upload image"),
               mkState (profilesCollection st) sys)
          | (Some imageURL, sys) =>
              if db_ok then
                (Sent StatusOK {["profileImage" := AnyString imageURL]},
                 mkState
                   (upsert_first (by_user userID) (Profile.with_ProfileImg (Some imageURL))
                      (Profile.of_image userID imageURL) (profilesCollection st))
                   sys)
              else
                (Sent StatusInternalServerError (error "Could not update profile image"),
                 mkState (profilesCollection st) sys)
          end
      end
  end.

(** [body] is what [c.BindJSON(&profile)] gives ([None]: its error). The
    struct is set member by member, nil pointers as nulls, so a match
    becomes the bound profile. *)
Definition PutProfile (c : gin.Context) (body : option Profile.t) (db_ok : bool)
    (st : State) : Answer * State :=
  let userID := gin.Param c "userid" in
  match body with
  | None => (Sent StatusBadRequest (error "Invalid request body"), st)
  | Some profile =>
      let profile := Profile.with_UserID userID profile in
      if db_ok then
        (Sent StatusOK (message "Profile updated"),
         mkState
           (upsert_first (by_user userID) (fun _ => profile) profile (profilesCollection st))
           (system st))
      else (Panicked "Database Error: ", st)
  end.

Definition PostProfile (c : gin.Context) (body : option Profile.t) (db_ok : bool)
    (st : State) : Answer * State :=
  let userID := gin.Param c "userid" in
  match body with
  | None => (Sent StatusBadRequest (error "Invalid request body"), st)
  | Some req =>
      let req := Profile.with_UserID userID req in
      if db_ok then
        (Sent StatusCreated (message "Profile created"),
         mkState (profilesCollection st ++ [req]) (system st))
      else (Sent StatusInternalServerError (error "Could not create profile"), st)
  end.

End handlers.
End profiles.

Module Qualification.
Record t := mk {
  UserID : string;
  QualificationID : string;
  Title : string;
  Institution : string;
  Start : string;
  End_ : string;
  Description : string
}.

Definition with_ids (u id : string) (q : t) : t :=
  mk u id (Title q) (Institution q) (Start q) (End_ q) (Description q).
End Qualification.

Module qualifications.

Inductive Answer : Type :=
| Sent (code : Z) (h : gmap string any)
| SentOne (code : Z) (q : Qualification.t)
| SentAll (code : Z) (l : list Qualification.t).

Definition error (msg : string) : gmap string any := {["error" := AnyString msg]}.
Definition message (msg : string) : gmap string any := {["message" := AnyString msg]}.

Definition by_user (userID : string) (q : Qualification.t) : bool :=
  bool_decide (Qualification.UserID q = userID).

Definition by_ids (userID qualificationID : string) (q : Qualification.t) : bool :=
  bool_decide (Qualification.UserID q = userID)
  && bool_decide (Qualification.QualificationID q = qualificationID).

Definition GetQualifications (c : gin.Context) (db_ok : bool)
    (docs : list Qualification.t) : Answer * list Qualification.t :=
  let userID := gin.Param c "userid" in
  if db_ok then (SentAll StatusOK (List.filter (by_user userID) docs), docs)
  else (Sent StatusInternalServerError (error "Could not retrieve qualifications"), docs).

Definition GetQualificationEntry (c : gin.Context) (db_ok : bool)
    (docs : list Qualification.t) : Answer * list Qualification.t :=
  let userID := gin.Param c "userid" in
  let qualificationID := gin.Param c "qualificationid" in
  match (if db_ok then List.find (by_ids userID qualificationID) docs else None) with
  | None => (Sent StatusInternalServerError (error "Could not retrieve qualification"), docs)
  | Some qualification => (SentOne StatusOK qualification, docs)
  end.

Definition PutQualificationEntry (c : gin.Context) (body : option Qualification.t)
    (db_ok : bool) (docs : list Qualification.t) : Answer * list Qualification.t :=
  let userID := gin.Param c "userid" in
  let qualificationID := gin.Param c "qualificationid" in
  match body with
  | None => (Sent StatusBadRequest (error "Invalid request body"), docs)
  | Some req =>
      let req := Qualification.with_ids userID qualificationID req in
      if db_ok then
        (Sent StatusOK (message "Qualification updated"),
         upsert_first (by_ids userID qualificationID) (fun _ => req) req docs)
      else (Sent StatusInternalServerError (error "Could not update qualification"), docs)
  end.

Definition DeleteQualificationEntry (c : gin.Context) (db_ok : bool)
    (docs : list Qualification.t) : Answer * list Qualification.t :=
  let userID := gin.Param c "userid" in
  let qualificationID := gin.Param c "qualificationid" in
  if db_ok then
    (Sent StatusOK (message "Qualification deleted"),
     mongo.delete_first (by_ids userID qualificationID) docs)
  else (Sent StatusInternalServerError (error "Could not delete qualification"), docs).

(** [objectID] is [primitive.NewObjectID().Hex()]. *)
Definition PostQualification (c : gin.Context) (body : option Qualification.t)
    (objectID : string) (db_ok : bool) (docs : list Qualification.t)
  : Answer * list Qualification.t :=
  let userID := gin.Param c "userid" in
  match body with
  | None => (Sent StatusBadRequest (error "Invalid request body"), docs)
  | Some req =>
      let req := Qualification.with_ids userID objectID req in
      if db_ok then (Sent StatusOK (message "Qualification Created"), docs ++ [req])
      else (Sent StatusInternalServerError (error "Could not update qualification"), docs)
  end.

End qualifications.

(** Where the image store behind [store] keeps the blob of a name. *)
Definition stored_at (Join : string -> string -> string) (store : profiles.ImageStoreValue)
    (name : string) (sys : profile.System) : option (list Byte.byte) :=
  match store with
  | profiles.Local l => profile.local_blob_at Join l name sys
  | profiles.S3 s => profile.s3_blob_at s name sys
  end.

(** The profiles of the users other than [userID]. *)
Definition other_profiles (userID : string) (l : list Profile.t) : list Profile.t :=
  List.filter (fun p => negb (profiles.by_user userID p)) l.

(** ** Further concrete requests and stores *)

Module further.

(** The store does not answer. *)
Definition down : Env := {|
  wall := wall sample.env;
  fault := fun _ => true;
  uuid := uuid sample.env;
  ParseWithClaims := ParseWithClaims sample.env;
  SplitHostPort := SplitHostPort sample.env;
  date_between := date_between sample.env
|}.

(** A request on [j-1] in the name of [u2], who does not own it. *)
Definition as_u2 : gin.Context :=
  sample.request {["userID" := AnyString "u2"]} "j-1" (sample.body 2 "Mine now").

Definition append_j1 : gin.Context :=
  sample.request sample.as_owner "j-1" (sample.body 9 "Day 4").

Definition undecodable : gin.Context :=
  gin.mk "localhost:8080" {["journalid" := "j-1"]} ∅ ∅
         (inl "unexpected end of JSON input") (sample.as_user ∪ sample.as_owner).

(** [GET /journal?tag=sea&start=2023-01-01] *)
Definition list_sea : gin.Context :=
  gin.mk "localhost:8080" ∅ {["tag" := "sea"; "start" := "2023-01-01"]} ∅
         (inr (sample.body 0 EmptyString)) ∅.

(** [GET /journal/u/u1] *)
Definition list_u1 : gin.Context :=
  gin.mk "localhost:8080" {["userid" := "u1"]} ∅ ∅ (inr (sample.body 0 EmptyString)) ∅.

Definition publish_j2 : gin.Context :=
  sample.request sample.as_owner "j-2"
    (gin.mkObject 0 EmptyString EmptyString [] Go.zeroTime "public").

Definition read (journalID : string) : gin.Context :=
  sample.request ∅ journalID (sample.body 0 EmptyString).

Definition avatar : profile.File := sample.photo [Byte.x89; Byte.x50].

Definition upload : gmap string (string * option profile.File) :=
  {["profileImage" := ("me.png", Some avatar)]}.

Definition for_u1 : gin.Context :=
  gin.mk "localhost:8080" {["userid" := "u1"; "qualificationid" := "q-1"]} ∅ ∅
         (inr (sample.body 0 EmptyString)) ∅.

(** The same user, and the id the server has just made. *)
Definition minted : gin.Context :=
  gin.mk "localhost:8080" {["userid" := "u1"; "qualificationid" := "65f0c1"]} ∅ ∅
         (inr (sample.body 0 EmptyString)) ∅.

Definition bucket : profiles.ImageStoreValue := profiles.S3 (profile.mkS3 "avatars").

Definition ann_profile : Profile.t :=
  Profile.mk "u1" (Some "Ann") (Some "ann@example.org") None None
    (Some "/images/u1-old.png") None None.

Definition state : profiles.State := profiles.mkState [ann_profile] sample.machine.

(** A body that carries another user's id and no image. *)
Definition new_profile : Profile.t :=
  Profile.mk "u2" (Some "Ann B.") None None (Some "hello") None None None.

Definition degree : Qualification.t :=
  Qualification.mk "u1" "q-1" "BSc" "Uni" "2010" "2013" "first".

Definition other_degree : Qualification.t :=
  Qualification.mk "u9" "q-9" "MSc" "Uni" "2013" "2014" EmptyString.

(** A journal of [u9], and a store that holds it next to the user [ann]. *)
Definition of_u9 : JournalEntry.t :=
  JournalEntry.mk "j-7" "u9" 2 [sample.v 1 "Mon"; sample.v 2 "Tue"] "pending"
    Taxonomy.zero EmptyString 1700000020%Z 1700000021%Z.

Definition shelf : World := mkWorld [of_u9] [sample.ann] 0 0 1.

(** The object store cannot be reached. *)
Definition offline : profile.System :=
  profile.mkSystem ∅ ∅ (fun _ => true) ∅ false.

(** An upload whose reading fails after the first byte. *)
Definition torn : profile.File :=
  profile.mkFile [Byte.x89; Byte.x50; Byte.x4e] (Some 1%nat).

(** A disk that has an image of [u1] already. *)
Definition used_disk : profile.System :=
  profile.mkSystem ∅ {[sample.join "/images" "u1-me.png" := [Byte.x00; Byte.x01]]}
    (fun _ => true) ∅ true.

End further.

(** * Properties *)

(** ** Integers, lists, filters and updates *)

Lemma wrap_small (z : Z) : (Go.int_min <= z <= Go.int_max)%Z -> Go.wrap z = z.
Proof.
  unfold Go.wrap, Go.int_min, Go.int_max. intros Hz.
  rewrite Z.mod_small by lia. lia.
Qed.

Lemma find_update_first {A} (p : A -> bool) (f : A -> A) (l : list A) :
  (forall x, p x = true -> p (f x) = true) ->
  List.find p (mongo.update_first p f l) = f <$> List.find p l.
Proof.
  intros Hp. induction l as [|x l IH]; [done|].
  cbn. destruct (p x) eqn:Hx; cbn.
  - by rewrite (Hp x Hx).
  - by rewrite Hx.
Qed.

Lemma update_first_none {A} (p : A -> bool) (f : A -> A) (l : list A) :
  List.find p l = None -> mongo.update_first p f l = l.
Proof.
  induction l as [|x l IH]; [done|].
  cbn. destruct (p x); [done|]. intros H. by rewrite IH.
Qed.

Lemma delete_first_none {A} (p : A -> bool) (l : list A) :
  List.find p l = None -> mongo.delete_first p l = l.
Proof.
  induction l as [|x l IH]; [done|].
  cbn. destruct (p x); [done|]. intros H. by rewrite IH.
Qed.

(** The first match splits the collection. *)
Lemma find_split {A} (p : A -> bool) (l : list A) (x : A) :
  List.find p l = Some x ->
  exists l1 l2, l = l1 ++ x :: l2 /\ List.find p l1 = None /\ p x = true.
Proof.
  induction l as [|y l IH]; [done|].
  cbn. destruct (p y) eqn:Hy.
  - intros [= ->]. by exists [], l.
  - intros H. destruct (IH H) as (l1 & l2 & -> & H1 & H2).
    exists (y :: l1), l2. cbn. by rewrite Hy.
Qed.

Lemma find_app_none {A} (p : A -> bool) (l1 l2 : list A) :
  List.find p l1 = None -> List.find p (l1 ++ l2) = List.find p l2.
Proof.
  induction l1 as [|y l1 IH]; [done|].
  cbn. destruct (p y); done.
Qed.

Lemma update_first_split {A} (p : A -> bool) (f : A -> A) (l1 l2 : list A) (x : A) :
  List.find p l1 = None -> p x = true ->
  mongo.update_first p f (l1 ++ x :: l2) = l1 ++ f x :: l2.
Proof.
  intros H1 Hx. induction l1 as [|y l1 IH]; cbn.
  - by rewrite Hx.
  - cbn in H1. destruct (p y); [done|]. by rewrite IH.
Qed.

Lemma delete_first_split {A} (p : A -> bool) (l1 l2 : list A) (x : A) :
  List.find p l1 = None -> p x = true ->
  mongo.delete_first p (l1 ++ x :: l2) = l1 ++ l2.
Proof.
  intros H1 Hx. induction l1 as [|y l1 IH]; cbn.
  - by rewrite Hx.
  - cbn in H1. destruct (p y); [done|]. by rewrite IH.
Qed.

(** One call of the store whose round trip is known to go through. *)
Ltac store_answers Hfault :=
  unfold mongo.FindOne, mongo.InsertOne, mongo.UpdateOne, mongo.DeleteOne,
    mongo.round_trip, bind;
  cbn; rewrite Hfault; cbn.

Section journal_facts.

Variable env : Env.

Lemma matches_owner_filter (journalID userID : string) (j : JournalEntry.t) :
  mongo.matches env (journal.owner_filter journalID userID) j = true
  <-> JournalEntry.JournalID j = journalID /\ JournalEntry.UserID j = userID.
Proof.
  unfold mongo.matches, journal.owner_filter.
  rewrite bool_decide_eq_true, map_Forall_insert by done.
  rewrite map_Forall_singleton.
  cbn. rewrite !bool_decide_eq_true. tauto.
Qed.

Lemma matches_id_filter (journalID : string) (j : JournalEntry.t) :
  mongo.matches env (journal.id_filter journalID) j = true
  <-> JournalEntry.JournalID j = journalID.
Proof.
  unfold mongo.matches, journal.id_filter.
  rewrite bool_decide_eq_true, map_Forall_singleton.
  cbn. by rewrite bool_decide_eq_true.
Qed.



(** *** Creation *)

(** Creation with an identity and a decodable body: the aggregate that is
    stored and returned has pointer 1, status ["pending"], and as its one
    entry the decoded body as it came. *)
Lemma CreateJournalEntry_stores (c : gin.Context) (w : World) (u : User.t) (o : gin.Object) :
  gin.Get c "user" = Some (AnyUser u) ->
  gin.Payload c = inr o ->
  fault env (round_trips w) = false ->
  let newEntry :=
    Entry.mk (gin.o_version o) (gin.o_title o) (gin.o_content o)
             (gin.o_attachments o) (gin.o_updatedAt o) in
  let j :=
    JournalEntry.mk (uuid env (ids_drawn w)) (User.ID u) 1 [newEntry] "pending"
      Taxonomy.zero EmptyString (wall env (clock_reads w)) (wall env (S (clock_reads w))) in
  fst (journal.CreateJournalEntry env c w) = Reply StatusCreated (Journal j)
  /\ journalCollection (snd (journal.CreateJournalEntry env c w)) = journalCollection w ++ [j].
Proof.
  intros Hget Hbody Hfault newEntry j.
  unfold journal.CreateJournalEntry, gin.ShouldBindJSON_Entry.
  rewrite Hget, Hbody.
  store_answers Hfault. done.
Qed.

(** Creation without an identity is refused, and nothing is stored. *)
Lemma CreateJournalEntry_unauthorized (c : gin.Context) (w : World) :
  gin.Get c "user" = None ->
  journal.CreateJournalEntry env c w
  = (Reply StatusUnauthorized (gin.error "User not authenticated"), w).
Proof. intros Hget. unfold journal.CreateJournalEntry. by rewrite Hget. Qed.

(** *** Appending *)

(** One append: the new entry is numbered one above the pointer
    [JournalEntry.Version] of the stored aggregate and becomes the last
    entry; the pointer moves to it. *)
Lemma UpdateJournalEntry_appends (c : gin.Context) (w : World) (userID : string)
    (o : gin.Object) (j : JournalEntry.t) (before after : list JournalEntry.t) :
  gin.Get c "userID" = Some (AnyString userID) ->
  gin.Payload c = inr o ->
  fault env (round_trips w) = false ->
  fault env (S (round_trips w)) = false ->
  let filter := journal.owner_filter (gin.Param c "journalid") userID in
  journalCollection w = before ++ j :: after ->
  List.find (mongo.matches env filter) before = None ->
  mongo.matches env filter j = true ->
  let e :=
    Entry.mk (Go.add (JournalEntry.Version j) 1) (gin.o_title o) (gin.o_content o)
             (gin.o_attachments o) (wall env (clock_reads w)) in
  let j' :=
    JournalEntry.with_UpdatedAt (wall env (S (clock_reads w)))
      (JournalEntry.with_Version (Go.add (JournalEntry.Version j) 1)
         (JournalEntry.with_Entries (JournalEntry.Entries j ++ [e]) j)) in
  fst (journal.UpdateJournalEntry env c w) = Reply StatusOK (Journal j')
  /\ journalCollection (snd (journal.UpdateJournalEntry env c w)) = before ++ j' :: after.
Proof.
  intros Hkey Hbody Hf1 Hf2 filter Hdocs Hbefore Hj e j'.
  unfold journal.UpdateJournalEntry, gin.MustGet, gin.ShouldBindJSON_Entry, bind.
  rewrite Hkey, Hbody. cbn.
  store_answers Hf1.
  fold filter. rewrite Hdocs, (find_app_none _ _ _ Hbefore). cbn. rewrite Hj. cbn.
  store_answers Hf2.
  split; [done|].
  by rewrite update_first_split.
Qed.

Lemma appends_tracked (journalID userID : string) (cs : list gin.Context) :
  (forall n, fault env n = false) ->
  Forall (owner_request journalID userID) cs ->
  forall (n : nat) (w : World),
    (Z.of_nat (n + length cs) <= Go.int_max)%Z ->
    tracked env journalID userID n w ->
    tracked env journalID userID (n + length cs) (appends env cs w).
Proof.
  intros Hfault Hcs. induction Hcs as [|c cs Hc Hcs IH]; intros n w Hmax Htr.
  - cbn. by rewrite Nat.add_0_r.
  - cbn [length] in *.
    replace (n + S (length cs))%nat with (S n + length cs)%nat in * by lia.
    unfold appends. cbn [fold_left]. apply IH; [done|].
    destruct Hc as (Hparam & Hkey & o & Hbody).
    destruct Htr as (before & j & after & Hdocs & Hbefore & Hj & Hver & Hlen & Hnum).
    rewrite <- Hparam in Hbefore, Hj.
    destruct (UpdateJournalEntry_appends c w userID o j before after
                Hkey Hbody (Hfault _) (Hfault _) Hdocs Hbefore Hj) as [_ Hdocs'].
    rewrite Hparam in Hbefore, Hj.
    eexists before, _, after. split; [exact Hdocs'|].
    split; [done|]. split.
    { apply matches_owner_filter. apply matches_owner_filter in Hj. done. }
    assert (Go.add (JournalEntry.Version j) 1 = Z.of_nat (S n)) as Hadd.
    { unfold Go.add. rewrite Hver. rewrite wrap_small; [lia|].
      unfold Go.int_min. unfold Go.int_max in *. lia. }
    cbn. rewrite Hadd. split; [done|]. split.
    { rewrite length_app. cbn. lia. }
    intros i e Hi Hlook.
    destruct (decide (i < length (JournalEntry.Entries j))%nat) as [Hlt|Hge].
    + rewrite lookup_app_l in Hlook by done. by apply Hnum.
    + rewrite lookup_app_r in Hlook by lia.
      destruct (i - length (JournalEntry.Entries j))%nat as [|k] eqn:Hk; [|done].
      cbn in Hlook. injection Hlook as <-. cbn. lia.
Qed.

(** C1, as the code has it. After a creation, [N] appends served one after
    the other with no other request on the journal in between (and [N]
    below the range of [int]) leave an aggregate with [N + 1] entries whose
    entry at every index [i >= 1] has version [i + 1], and whose pointer is
    [N + 1]: an append numbers the new entry one above the pointer
    [JournalEntry.Version], which in such a run is the version of the entry
    appended last. *)
Theorem appends_after_create_are_numbered (c0 : gin.Context) (cs : list gin.Context)
    (w0 : World) (u : User.t) (o : gin.Object) :
  (forall n, fault env n = false) ->
  gin.Get c0 "user" = Some (AnyUser u) ->
  gin.Payload c0 = inr o ->
  (forall j, j ∈ journalCollection w0 ->
     JournalEntry.JournalID j <> uuid env (ids_drawn w0)) ->
  Forall (owner_request (uuid env (ids_drawn w0)) (User.ID u)) cs ->
  (Z.of_nat (length cs) < Go.int_max)%Z ->
  let w := appends env cs (snd (journal.CreateJournalEntry env c0 w0)) in
  exists j,
    List.find (mongo.matches env (journal.owner_filter (uuid env (ids_drawn w0)) (User.ID u)))
              (journalCollection w) = Some j
    /\ length (JournalEntry.Entries j) = S (length cs)
    /\ numbered_from 1 (JournalEntry.Entries j)
    /\ JournalEntry.Version j = (Z.of_nat (length cs) + 1)%Z.
Proof.
  intros Hfault Hget Hbody Hfresh Hcs Hmax w.
  destruct (CreateJournalEntry_stores c0 w0 u o Hget Hbody (Hfault _)) as [_ Hdocs].
  assert (tracked env (uuid env (ids_drawn w0)) (User.ID u) 1
            (snd (journal.CreateJournalEntry env c0 w0))) as Htr.
  { eexists (journalCollection w0), _, []. split; [exact Hdocs|]. split.
    - destruct (List.find _ (journalCollection w0)) as [x|] eqn:Hx; [|done].
      apply find_some in Hx as [Hin Hx%matches_owner_filter].
      apply list_elem_of_In in Hin. destruct (Hfresh x Hin). tauto.
    - split; [by apply matches_owner_filter|]. split; [done|]. split; [done|].
      intros i e Hi Hlook. destruct i as [|i]; [lia|done]. }
  apply (appends_tracked _ _ cs Hfault Hcs) in Htr; [|lia].
  destruct Htr as (before & j & after & Hdocs' & Hbefore & Hj & Hver & Hlen & Hnum).
  exists j. subst w. rewrite Hdocs', (find_app_none _ _ _ Hbefore). cbn. rewrite Hj.
  split; [done|]. split; [done|]. split; [done|]. lia.
Qed.

(** *** Repointing, status, deletion *)


(** C8. A delete request of the owner is answered 200 ["Journal entry
    deleted"] whether or not the filter on journal and owner matches. With
    no match the collection stays as it was; with a match the first
    matching document is taken out, and no other. *)
Theorem DeleteJournalEntry_no_match_succeeds (c : gin.Context) (w : World)
    (userID : string) :
  gin.Get c "userID" = Some (AnyString userID) ->
  fault env (round_trips w) = false ->
  let filter := journal.owner_filter (gin.Param c "journalid") userID in
  let out := journal.DeleteJournalEntry env c w in
  fst out = Reply StatusOK (gin.message "Journal entry deleted")
  /\ (List.find (mongo.matches env filter) (journalCollection w) = None ->
      journalCollection (snd out) = journalCollection w)
  /\ (forall j, List.find (mongo.matches env filter) (journalCollection w) = Some j ->
      exists before after,
        journalCollection w = before ++ j :: after
        /\ List.find (mongo.matches env filter) before = None
        /\ journalCollection (snd out) = before ++ after
        /\ (List.find (mongo.matches env filter) after = None ->
            List.find (mongo.matches env filter) (journalCollection (snd out)) = None)).
Proof.
  intros Hkey Hfault filter out. subst out.
  unfold journal.DeleteJournalEntry, gin.MustGet, bind.
  rewrite Hkey. cbn.
  store_answers Hfault.
  split; [done|]. split.
  - intros Hnone. by apply delete_first_none.
  - intros j Hj. destruct (find_split _ _ _ Hj) as (l1 & l2 & Hl & H1 & Hp).
    exists l1, l2. split; [done|]. split; [done|].
    fold filter. rewrite Hl, delete_first_split by done.
    split; [done|]. intros H2. by rewrite find_app_none.
Qed.

(** C9. A set-status request of the owner, whatever the status string: it
    is answered 200, and in the collection the first document matching
    journal and owner gets that string as [Status] and the clock reading as
    [UpdatedAt]; its other seven members, and every other document, stay. *)
Theorem SetJournalStatus_frame (c : gin.Context) (w : World) (userID status : string) :
  gin.Get c "userID" = Some (AnyString userID) ->
  gin.ShouldBindJSON_Status c = inr status ->
  fault env (round_trips w) = false ->
  let filter := journal.owner_filter (gin.Param c "journalid") userID in
  let out := journal.SetJournalStatus env c w in
  let now := wall env (clock_reads w) in
  fst out = Reply StatusOK (gin.message "Journal status updated")
  /\ journalCollection (snd out)
     = mongo.update_first (mongo.matches env filter) (retag status now) (journalCollection w)
  /\ forall j, List.find (mongo.matches env filter) (journalCollection w) = Some j ->
       List.find (mongo.matches env filter) (journalCollection (snd out))
       = Some (retag status now j)
       /\ exists before after,
           journalCollection w = before ++ j :: after
           /\ journalCollection (snd out) = before ++ retag status now j :: after.
Proof.
  intros Hkey Hbind Hfault filter out now. subst out.
  unfold journal.SetJournalStatus, gin.MustGet, bind.
  rewrite Hkey. cbn. rewrite Hbind. cbn.
  store_answers Hfault.
  split; [done|]. split; [done|].
  intros j Hj. fold filter. change (mongo.set_fields _) with (retag status now). split.
  - rewrite find_update_first.
    + by rewrite Hj.
    + intros x. subst filter. rewrite !matches_owner_filter. done.
  - destruct (find_split _ _ _ Hj) as (l1 & l2 & Hl & H1 & Hp).
    exists l1, l2. split; [done|].
    rewrite Hl. by apply update_first_split.
Qed.

(** *** Listing *)

Lemma public_filter_status (c : gin.Context) :
  journal.public_filter c !! "status" = Some (bson.Is "public").
Proof.
  unfold journal.public_filter, journal.with_param.
  repeat (case_match; rewrite ?lookup_insert_ne by done); by rewrite lookup_singleton_eq.
Qed.

Lemma matches_public (c : gin.Context) (j : JournalEntry.t) :
  mongo.matches env (journal.public_filter c) j = true ->
  JournalEntry.Status j = "public".
Proof.
  unfold mongo.matches. rewrite bool_decide_eq_true. intros Hall.
  specialize (Hall _ _ (public_filter_status c)).
  cbn in Hall. by apply bool_decide_eq_true in Hall.
Qed.

(** C7. Whatever the store holds and whatever the query parameters are, the
    public listing answers with the stored aggregates that match its
    filter, each of which has status ["public"] (a stored aggregate with
    another status is not among them), or with an error that carries no
    aggregate; with the store answering, it is the former. *)
Theorem GetPublicJournals_only_public (c : gin.Context) (w : World) :
  let out := journal.GetPublicJournals env c w in
  let listed :=
    List.filter (mongo.matches env (journal.public_filter c)) (journalCollection w) in
  (forall j, j ∈ listed -> j ∈ journalCollection w /\ JournalEntry.Status j = "public")
  /\ (forall j, JournalEntry.Status j <> "public" -> j ∉ listed)
  /\ (fst out = Reply StatusOK (Journals listed)
      \/ fst out = Reply StatusInternalServerError
                     (gin.error "Error retrieving journal entries")
      \/ fst out = Reply StatusInternalServerError
                     (gin.error "Error parsing journal entries"))
  /\ (fault env (round_trips w) = false -> fault env (S (round_trips w)) = false ->
      fst out = Reply StatusOK (Journals listed)).
Proof.
  intros out listed.
  assert (forall j, j ∈ listed -> j ∈ journalCollection w /\ JournalEntry.Status j = "public")
    as Hlisted.
  { intros j Hj. apply list_elem_of_In, filter_In in Hj as [Hin Hj].
    split; [by apply list_elem_of_In|by eapply matches_public]. }
  split; [done|]. split.
  { intros j Hstatus Hj. by destruct (Hlisted j Hj). }
  subst out. unfold journal.GetPublicJournals, mongo.Find, mongo.round_trip, bind. cbn.
  split.
  - destruct (fault env (round_trips w)); cbn; [by right; left|].
    destruct (fault env (S (round_trips w))); cbn; [by right; right|by left].
  - intros H1 H2. rewrite H1. cbn. by rewrite H2.
Qed.

(** *** Reading one journal *)



(** *** What a request brings to its handler *)

Lemma extractIdentifierMiddleware_keys (c : gin.Context) (w : World) :
  exists c',
    main.extractIdentifierMiddleware env c w = (Ret c', w)
    /\ forall key, key <> "identifier" -> gin.Get c' key = gin.Get c key.
Proof.
  unfold main.extractIdentifierMiddleware.
  repeat case_match; eexists; (split; [reflexivity|]); intros key Hkey;
    unfold gin.Get, gin.SetKey; cbn; by rewrite ?lookup_insert_ne.
Qed.

(** The authentication middleware lets a request through only with the
    record of a registered user under ["user"]; it sets no other key and
    leaves the journals alone. *)
Lemma AuthMiddleware_keys (c c' : gin.Context) (w w' : World) :
  auth.AuthMiddleware env true c w = (Ret c', w') ->
  journalCollection w' = journalCollection w
  /\ (exists user, user ∈ usersCollection w /\ gin.Get c' "user" = Some (AnyUser user))
  /\ forall key, key <> "user" -> gin.Get c' key = gin.Get c key.
Proof.
  unfold auth.AuthMiddleware, auth.not_authenticated, mongo.FindUser, mongo.round_trip, bind.
  cbn.
  destruct (gin.Cookie c "token") as [token|]; [|done].
  destruct (ParseWithClaims env token) as [id|]; [|done].
  destruct (negb (fault env (round_trips w))); cbn; [|done].
  destruct (List.find _ _) as [user|] eqn:Huser; [|done].
  intros [= <- <-]. split; [done|]. split.
  - exists user. split.
    + apply find_some in Huser as [Hin _]. by apply list_elem_of_In.
    + unfold gin.Get, gin.SetKey. cbn. apply lookup_insert_eq.
  - intros key Hkey. unfold gin.Get, gin.SetKey. cbn. by rewrite lookup_insert_ne.
Qed.

Lemma AuthMiddleware_refuses (c : gin.Context) (w : World) :
  (exists c' w', auth.AuthMiddleware env true c w = (Ret c', w'))
  \/ (exists w',
        auth.AuthMiddleware env true c w
        = (Reply StatusUnauthorized (gin.error "Not authenticated"), w')
        /\ journalCollection w' = journalCollection w).
Proof.
  unfold auth.AuthMiddleware, auth.not_authenticated, mongo.FindUser, mongo.round_trip, bind.
  cbn.
  destruct (gin.Cookie c "token") as [token|]; [|right; by eexists].
  destruct (ParseWithClaims env token) as [id|]; [|right; by eexists].
  destruct (negb (fault env (round_trips w))); cbn; [|right; by eexists].
  destruct (List.find _ _) as [user|]; [left; by eexists _, _|right; by eexists].
Qed.

(** The route [GET /:journalid] is outside the protected group: whatever
    cookie a request carries, its handler sees no identity. *)
Remark GET_journal_has_no_identity (c : gin.Context) (w : World) :
  exists c',
    before_handler env journal.GET_journal c w = (Ret c', w)
    /\ journal.identity_present c' = false
    /\ journal.serve env journal.GET_journal c w = journal.GetJournalEntry env c' w.
Proof.
  unfold journal.serve, before_handler, bind. cbn.
  destruct (extractIdentifierMiddleware_keys (gin.reset c) w) as (c1 & -> & Hkeys1).
  exists c1. split; [done|]. split; [|done].
  unfold journal.identity_present. rewrite Hkeys1 by done.
  unfold gin.Get, gin.reset. cbn. by rewrite lookup_empty.
Qed.

(** C3. On the routes of the owner's mutations (append, process,
    set-current-version, set-status, delete) a request ends either in the
    401 of the authentication middleware or in the panic of
    [MustGet("userID")], and the journal collection is as before. A request
    that gets past the middleware reaches its handler with the user record
    under ["user"] and with no key ["userID"], and ends in that panic. *)
Theorem owner_mutations_abort_on_userID (r : journal.Route) (c : gin.Context) (w : World) :
  owner_mutation r = true ->
  let out := journal.serve env r c w in
  journalCollection (snd out) = journalCollection w
  /\ (fst out = Panic (missing_key "userID")
      \/ fst out = Reply StatusUnauthorized (gin.error "Not authenticated"))
  /\ forall c' w',
       before_handler env r c w = (Ret c', w') ->
       (exists user, user ∈ usersCollection w /\ gin.Get c' "user" = Some (AnyUser user))
       /\ gin.Get c' "userID" = None
       /\ out = (Panic (missing_key "userID"), w').
Proof.
  intros Hr out. subst out.
  assert (journal.protected r = true) as Hprot by (by destruct r).
  unfold journal.serve, before_handler, bind. rewrite Hprot.
  destruct (extractIdentifierMiddleware_keys (gin.reset c) w) as (c1 & -> & Hkeys1).
  assert (forall c2 w2,
            gin.Get c2 "userID" = None ->
            journal.handler env r c2 w2 = (Panic (missing_key "userID"), w2)) as Hpanic.
  { intros c2 w2 Hkey.
    destruct r; try done; cbn;
      unfold journal.UpdateJournalEntry, journal.ProcessJournalEntry,
        journal.SetJournalVersion, journal.SetJournalStatus,
        journal.DeleteJournalEntry, gin.MustGet, bind;
      by rewrite Hkey. }
  assert (forall c2 w2,
            auth.AuthMiddleware env true c1 w = (Ret c2, w2) ->
            gin.Get c2 "userID" = None) as Hnokey.
  { intros c2 w2 Hauth. destruct (AuthMiddleware_keys _ _ _ _ Hauth) as (_ & _ & Hkeys2).
    rewrite Hkeys2, Hkeys1 by done. apply lookup_empty. }
  destruct (AuthMiddleware_refuses c1 w) as [(c2 & w2 & Hauth)|(w2 & Hauth & Hw2)];
    rewrite Hauth.
  - destruct (AuthMiddleware_keys _ _ _ _ Hauth) as (Hw2 & Huser & _).
    rewrite (Hpanic c2 w2 (Hnokey _ _ Hauth)). cbn.
    split; [done|]. split; [by left|].
    intros c' w' [= <- <-]. split; [|split]; [done| |done]. by eapply Hnokey.
  - cbn. split; [done|]. split; [by right|]. done.
Qed.

End journal_facts.

(** ** The image stores *)

Lemma append_assoc (a b c : string) : (a +:+ b) +:+ c = a +:+ (b +:+ c).
Proof.
  induction a as [|x a IH]; [done|].
  change (String x ((a +:+ b) +:+ c) = String x (a +:+ b +:+ c)). by rewrite IH.
Qed.

Lemma ends_with_append (front s suffix : string) :
  profile.ends_with s suffix -> profile.ends_with (front +:+ s) suffix.
Proof. intros [p ->]. exists (front +:+ p). by rewrite append_assoc. Qed.

Lemma ends_with_refl (s : string) : profile.ends_with s s.
Proof. by exists EmptyString. Qed.

Lemma imageName_is_spec_name (ownerID filename : string) :
  profile.imageName ownerID filename = profile.spec_name ownerID filename.
Proof. reflexivity. Qed.








(** ** The properties at concrete requests *)

(** C2. [POST /journal] with the cookie of a registered user and the body
    [{"title": "Day 1", "content": "..."}], served on an empty collection:
    the aggregate stored and returned has pointer 1, one entry and status
    ["pending"], but that entry has version 0 and the zero time as
    [UpdatedAt]: the handler stores the decoded body as it is, where
    [UpdateJournalEntry] stamps the entry it appends with a version and the
    clock reading. *)
Theorem CreateJournalEntry_first_entry_unstamped :
  exists j e,
    journal.serve sample.env journal.POST_root sample.post_day1 sample.empty_store
    = (Reply StatusCreated (Journal j), mkWorld [j] [sample.ann] 2 2 1)
    /\ JournalEntry.Version j = 1%Z
    /\ JournalEntry.Entries j = [e]
    /\ JournalEntry.Status j = "pending"
    /\ JournalEntry.CreatedAt j = 1700000000%Z
    /\ Entry.Version e = 0%Z
    /\ Entry.UpdatedAt e = Go.zeroTime.
Proof. eexists _, _. split; [vm_compute; reflexivity|]. repeat split. Qed.

Lemma appends_after_create_are_numbered_witness :
  exists j,
    List.find (mongo.matches sample.env (journal.owner_filter "0-4f6c" "u1"))
      (journalCollection
         (appends sample.env [sample.append_ "Day 2"; sample.append_ "Day 3"]
            (snd (journal.CreateJournalEntry sample.env sample.create_day1
                    sample.empty_store)))) = Some j
    /\ length (JournalEntry.Entries j) = 3%nat
    /\ numbered_from 1 (JournalEntry.Entries j)
    /\ JournalEntry.Version j = 3%Z.
Proof.
  apply (appends_after_create_are_numbered sample.env sample.create_day1
           [sample.append_ "Day 2"; sample.append_ "Day 3"] sample.empty_store
           sample.ann (sample.body 0 "Day 1")).
  - intros n. reflexivity.
  - reflexivity.
  - reflexivity.
  - intros j Hj. inversion Hj.
  - repeat constructor; eexists; reflexivity.
  - reflexivity.
Defined.

(** C1 fails after a repoint. Create (the client sending version 1 for the
    first entry), append, set the current version to 1, append: the three
    entries carry the versions 1, 2, 2; the third is not numbered 3, and
    version 2 is used twice. *)
Lemma append_after_repoint_reuses_version :
  exists j,
    journalCollection sample.after_repoint_and_append = [j]
    /\ map Entry.Version (JournalEntry.Entries j) = [1; 2; 2]%Z
    /\ ~ numbered_from 0 (JournalEntry.Entries j).
Proof.
  eexists. split; [vm_compute; reflexivity|]. split; [reflexivity|].
  intros Hnum. specialize (Hnum 2%nat _ (Nat.le_0_l _) eq_refl). discriminate Hnum.
Qed.


Lemma owner_mutations_abort_on_userID_witness :
  journal.serve sample.env journal.PUT_journal
    (sample.with_cookie "j-1" (sample.body 0 "Day 4")) sample.store
  = (Panic (missing_key "userID"),
     mkWorld (journalCollection sample.store) [sample.ann] 0 1 2).
Proof.
  destruct (owner_mutations_abort_on_userID sample.env journal.PUT_journal
              (sample.with_cookie "j-1" (sample.body 0 "Day 4")) sample.store eq_refl)
    as (_ & _ & Hreached).
  apply (Hreached
           (gin.SetKey (gin.reset (sample.with_cookie "j-1" (sample.body 0 "Day 4")))
              "user" (AnyUser sample.ann))).
  vm_compute. reflexivity.
Defined.




Lemma DeleteJournalEntry_no_match_succeeds_witness :
  fst (journal.DeleteJournalEntry sample.env sample.delete_unknown sample.store)
  = Reply StatusOK (gin.message "Journal entry deleted")
  /\ journalCollection (snd (journal.DeleteJournalEntry sample.env sample.delete_unknown
                               sample.store))
     = [sample.three_versions; sample.draft].
Proof.
  destruct (DeleteJournalEntry_no_match_succeeds sample.env sample.delete_unknown
              sample.store "u1" eq_refl eq_refl) as (Hreply & Hnone & _).
  split; [exact Hreply|]. apply Hnone. reflexivity.
Defined.

Lemma SetJournalStatus_frame_witness :
  fst (journal.SetJournalStatus sample.env sample.set_status_archived sample.store)
  = Reply StatusOK (gin.message "Journal status updated")
  /\ journalCollection (snd (journal.SetJournalStatus sample.env sample.set_status_archived
                               sample.store))
     = [sample.three_versions; retag "archived" 1700000000%Z sample.draft].
Proof.
  destruct (SetJournalStatus_frame sample.env sample.set_status_archived
              sample.store "u1" "archived" eq_refl eq_refl eq_refl) as (Hreply & Hdocs & _).
  split; [exact Hreply|]. rewrite Hdocs. reflexivity.
Defined.

(** The listing of the sample store without query parameters: the public
    journal, not the pending one. *)
Example GetPublicJournals_sample :
  fst (journal.GetPublicJournals sample.env (sample.read_j1 ∅) sample.store)
  = Reply StatusOK (Journals [sample.three_versions]).
Proof. vm_compute. reflexivity. Qed.

(** Two uploads of [u1]'s [me.png], to the local store and to the bucket. *)
Example SaveImage_sample :
  let first := sample.photo [Byte.x89; Byte.x50] in
  let second := sample.photo [Byte.xff; Byte.xd8; Byte.xff] in
  let local := profile.mkLocal "/srv/images" in
  let bucket := profile.mkS3 "avatars" in
  let save_local :=
    profile.SaveImage (ImageStore := profile.LocalImageStore_store sample.join) local in
  let save_s3 := profile.SaveImage (ImageStore := profile.S3ImageStore_store) bucket in
  fst (save_local "u1" "me.png" first sample.machine) = Some "/images/u1-me.png"
  /\ profile.files (snd (save_local "u1" "me.png" second
                           (snd (save_local "u1" "me.png" first sample.machine))))
       !! "/srv/images/u1-me.png" = Some [Byte.xff; Byte.xd8; Byte.xff]
  /\ fst (save_s3 "u1" "me.png" first sample.machine)
     = Some "http://localhost:4566/avatars/u1-me.png"
  /\ profile.objects (snd (save_s3 "u1" "me.png" second
                             (snd (save_s3 "u1" "me.png" first sample.machine))))
       !! ("avatars", "u1-me.png") = Some [Byte.xff; Byte.xd8; Byte.xff].
Proof. vm_compute. repeat split. Qed.

Lemma GetPublicJournals_only_public_witness :
  fst (journal.GetPublicJournals sample.env (sample.read_j1 ∅) sample.store)
  = Reply StatusOK (Journals [sample.three_versions])
  /\ forall j, j ∈ [sample.three_versions] -> JournalEntry.Status j = "public".
Proof.
  destruct (GetPublicJournals_only_public sample.env (sample.read_j1 ∅) sample.store)
    as (Hpublic & _ & _ & Hreply).
  split.
  - exact (Hreply eq_refl eq_refl).
  - intros j Hj. exact (proj2 (Hpublic j Hj)).
Defined.



(** * Further properties *)

(** ** Further properties of the journal handlers *)

Lemma filter_update_first {A} (p q : A -> bool) (f : A -> A) (l : list A) :
  (forall x, p x = true -> q x = false /\ q (f x) = false) ->
  List.filter q (mongo.update_first p f l) = List.filter q l.
Proof.
  intros Hpq. induction l as [|x l IH]; [done|].
  cbn. destruct (p x) eqn:Hx; cbn.
  - destruct (Hpq x Hx) as [-> ->]. done.
  - by rewrite IH.
Qed.

Lemma filter_delete_first {A} (p q : A -> bool) (l : list A) :
  (forall x, p x = true -> q x = false) ->
  List.filter q (mongo.delete_first p l) = List.filter q l.
Proof.
  intros Hpq. induction l as [|x l IH]; [done|].
  cbn. destruct (p x) eqn:Hx; cbn.
  - by rewrite (Hpq x Hx).
  - by rewrite IH.
Qed.

Lemma range_entries_cases (entries : list Entry.t) (version : Z) (hit miss : Act unit) :
  journal.range_entries entries version hit miss = hit
  \/ journal.range_entries entries version hit miss = miss.
Proof.
  induction entries as [|e es IH]; cbn; [by right|].
  destruct (Entry.Version e =? version)%Z; [by left|done].
Qed.

Section journal_more.

Variable env : Env.

(** A [$set] that names neither ["journal_id"] nor ["user_id"] keeps a
    document under the owner filter it was found by. *)
Lemma elsewhere_update (journalID userID : string) (upd : gmap string any)
    (docs : list JournalEntry.t) :
  upd !! "journal_id" = None -> upd !! "user_id" = None ->
  elsewhere journalID userID
    (mongo.update_first (mongo.matches env (journal.owner_filter journalID userID))
       (mongo.set_fields upd) docs)
  = elsewhere journalID userID docs.
Proof.
  intros Hj Hu. apply filter_update_first. intros x Hx.
  apply matches_owner_filter in Hx.
  unfold mongo.set_fields. rewrite Hj, Hu. cbn.
  by rewrite bool_decide_true.
Qed.

Lemma elsewhere_delete (journalID userID : string) (docs : list JournalEntry.t) :
  elsewhere journalID userID
    (mongo.delete_first (mongo.matches env (journal.owner_filter journalID userID)) docs)
  = elsewhere journalID userID docs.
Proof.
  apply filter_delete_first. intros x Hx.
  apply matches_owner_filter in Hx. by rewrite bool_decide_true.
Qed.

(** X1. A mutation of the owner (append, process, set-current-version,
    set-status, delete), whatever its body and whether or not the store
    answers, leaves every document that is not the journal of the path
    under the owner of the context as it was, in the same order, and does
    not touch the users. *)
Theorem owner_mutations_touch_one_journal (r : journal.Route) (c : gin.Context)
    (w : World) (userID : string) :
  owner_mutation r = true ->
  gin.Get c "userID" = Some (AnyString userID) ->
  elsewhere (gin.Param c "journalid") userID
    (journalCollection (snd (journal.handler env r c w)))
  = elsewhere (gin.Param c "journalid") userID (journalCollection w)
  /\ usersCollection (snd (journal.handler env r c w)) = usersCollection w.
Proof.
  intros Hr Hkey.
  destruct r; try done; cbn;
    unfold journal.UpdateJournalEntry, journal.ProcessJournalEntry,
      journal.SetJournalVersion, journal.SetJournalStatus, journal.DeleteJournalEntry,
      gin.MustGet, gin.ShouldBindJSON_Entry, gin.ShouldBindJSON_Version,
      gin.ShouldBindJSON_Status, mongo.FindOne, mongo.UpdateOne, mongo.DeleteOne,
      mongo.round_trip, bind;
    rewrite Hkey; cbn.
  - (* append *)
    destruct (gin.Payload c) as [err|o]; cbn; [done|].
    destruct (fault env (round_trips w)); cbn; [done|].
    destruct (List.find _ _) as [j|]; cbn; [|done].
    destruct (fault env (S (round_trips w))); cbn; [done|].
    split; [|done]. by apply elsewhere_update.
  - (* process *)
    destruct (fault env (round_trips w)); cbn; [done|].
    split; [|done]. by apply elsewhere_update.
  - (* set current version *)
    destruct (gin.Payload c) as [err|o]; cbn; [done|].
    destruct (fault env (round_trips w)); cbn; [done|].
    destruct (List.find _ _) as [j|]; cbn; [|done].
    match goal with
    | |- context [journal.range_entries ?es ?v ?hit ?miss] =>
        destruct (range_entries_cases es v hit miss) as [-> | ->]
    end; cbn; [|done].
    destruct (fault env (S (round_trips w))); cbn; [done|].
    split; [|done]. by apply elsewhere_update.
  - (* set status *)
    destruct (gin.Payload c) as [err|o]; cbn; [done|].
    destruct (fault env (round_trips w)); cbn; [done|].
    split; [|done]. by apply elsewhere_update.
  - (* delete *)
    destruct (fault env (round_trips w)); cbn; [done|].
    split; [|done]. by apply elsewhere_delete.
Qed.

(** X2. An append or a set-current-version on a journal that is not stored
    under the user of the context (not stored at all, or stored under
    another owner) is answered 404 ["Journal entry not found"], and the
    collection stays as it was. *)
Theorem not_the_owners_journal_is_not_found (c : gin.Context) (w : World)
    (userID : string) (o : gin.Object) :
  gin.Get c "userID" = Some (AnyString userID) ->
  gin.Payload c = inr o ->
  (forall j, j ∈ journalCollection w ->
     JournalEntry.JournalID j = gin.Param c "journalid" ->
     JournalEntry.UserID j <> userID) ->
  fst (journal.UpdateJournalEntry env c w)
  = Reply StatusNotFound (gin.error "Journal entry not found")
  /\ journalCollection (snd (journal.UpdateJournalEntry env c w)) = journalCollection w
  /\ fst (journal.SetJournalVersion env c w)
     = Reply StatusNotFound (gin.error "Journal entry not found")
  /\ journalCollection (snd (journal.SetJournalVersion env c w)) = journalCollection w.
Proof.
  intros Hkey Hbody Hother.
  assert (List.find (mongo.matches env (journal.owner_filter (gin.Param c "journalid") userID))
            (journalCollection w) = None) as Hnone.
  { destruct (List.find _ _) as [x|] eqn:Hx; [|done].
    apply find_some in Hx as [Hin [Hid Hu]%matches_owner_filter].
    apply list_elem_of_In in Hin. by destruct (Hother x Hin Hid). }
  unfold journal.UpdateJournalEntry, journal.SetJournalVersion, gin.MustGet,
    gin.ShouldBindJSON_Entry, gin.ShouldBindJSON_Version, mongo.FindOne,
    mongo.round_trip, bind.
  rewrite Hkey, Hbody. cbn.
  destruct (fault env (round_trips w)); cbn; [done|].
  by rewrite Hnone.
Qed.

(** X3. An append keeps the history: the entries of the replied aggregate
    are the old ones followed by one new entry. That entry has the title,
    content and attachments of the body, but its version is the pointer
    plus one and its time the clock reading, whatever version and time the
    body carried. Identity, status, taxonomy, summary and creation time of
    the aggregate stay, and the aggregate then stored is the replied one
    in every member but the times. *)
Theorem UpdateJournalEntry_is_append_only (c : gin.Context) (w : World)
    (userID : string) (o : gin.Object) (j : JournalEntry.t) :
  gin.Get c "userID" = Some (AnyString userID) ->
  gin.Payload c = inr o ->
  fault env (round_trips w) = false ->
  fault env (S (round_trips w)) = false ->
  List.find (mongo.matches env (journal.owner_filter (gin.Param c "journalid") userID))
            (journalCollection w) = Some j ->
  exists j' stored,
    fst (journal.UpdateJournalEntry env c w) = Reply StatusOK (Journal j')
    /\ List.find (mongo.matches env (journal.owner_filter (gin.Param c "journalid") userID))
         (journalCollection (snd (journal.UpdateJournalEntry env c w))) = Some stored
    /\ untimed stored = untimed j'
    /\ JournalEntry.Entries j'
       = JournalEntry.Entries j
         ++ [appended_entry o (JournalEntry.Version j) (wall env (clock_reads w))]
    /\ JournalEntry.Version j' = Go.add (JournalEntry.Version j) 1
    /\ JournalEntry.JournalID j' = JournalEntry.JournalID j
    /\ JournalEntry.UserID j' = JournalEntry.UserID j
    /\ JournalEntry.Status j' = JournalEntry.Status j
    /\ JournalEntry.Taxonomy j' = JournalEntry.Taxonomy j
    /\ JournalEntry.Summary j' = JournalEntry.Summary j
    /\ JournalEntry.CreatedAt j' = JournalEntry.CreatedAt j.
Proof.
  intros Hkey Hbody Hf1 Hf2 Hfind.
  destruct (find_split _ _ _ Hfind) as (before & after & Hdocs & Hbefore & Hj).
  destruct (UpdateJournalEntry_appends env c w userID o j before after
              Hkey Hbody Hf1 Hf2 Hdocs Hbefore Hj) as [Hreply Hdocs'].
  eexists _, _. split; [exact Hreply|]. split.
  - rewrite Hdocs', (find_app_none _ _ _ Hbefore). cbn.
    replace (mongo.matches env _ _) with true; [done|].
    symmetry. apply matches_owner_filter. by apply matches_owner_filter in Hj.
  - repeat split.
Qed.

(** X4. [ProcessJournalEntry] answers 200 and sets the status of the first
    journal of the path under the owner to ["processing"]; it reads no
    clock and leaves [UpdatedAt] and all other members as they were. When
    no journal matches it answers 200 all the same and nothing changes. *)
Theorem ProcessJournalEntry_marks_processing (c : gin.Context) (w : World)
    (userID : string) :
  gin.Get c "userID" = Some (AnyString userID) ->
  fault env (round_trips w) = false ->
  let filter := journal.owner_filter (gin.Param c "journalid") userID in
  let out := journal.ProcessJournalEntry env c w in
  fst out = Reply StatusOK (gin.message "Journal entry is being processed")
  /\ journalCollection (snd out)
     = mongo.update_first (mongo.matches env filter) mark_processing (journalCollection w)
  /\ clock_reads (snd out) = clock_reads w
  /\ (List.find (mongo.matches env filter) (journalCollection w) = None ->
      journalCollection (snd out) = journalCollection w).
Proof.
  intros Hkey Hfault filter out. subst out filter.
  unfold journal.ProcessJournalEntry, gin.MustGet, bind. rewrite Hkey. cbn.
  store_answers Hfault.
  split; [done|]. split; [done|]. split; [done|].
  intros Hnone. by apply update_first_none.
Qed.

(** X5. When the store fails on the lookup, the handlers that look one
    journal up (read, metadata, versions, append, set-current-version)
    answer 404 ["Journal entry not found"], as for a journal that is not
    there, and the collection stays as it was. *)
Theorem failed_lookup_reads_as_not_found (c : gin.Context) (w : World) :
  fault env (round_trips w) = true ->
  let not_found := Reply StatusNotFound (gin.error "Journal entry not found") in
  (fst (journal.GetJournalEntry env c w) = not_found
   /\ fst (journal.GetJournalMeta env c w) = not_found
   /\ fst (journal.GetJournalVersions env c w) = not_found)
  /\ (forall userID o,
        gin.Get c "userID" = Some (AnyString userID) -> gin.Payload c = inr o ->
        fst (journal.UpdateJournalEntry env c w) = not_found
        /\ fst (journal.SetJournalVersion env c w) = not_found
        /\ journalCollection (snd (journal.UpdateJournalEntry env c w)) = journalCollection w
        /\ journalCollection (snd (journal.SetJournalVersion env c w)) = journalCollection w).
Proof.
  intros Hfault not_found. subst not_found.
  unfold journal.GetJournalEntry, journal.GetJournalMeta, journal.GetJournalVersions,
    journal.UpdateJournalEntry, journal.SetJournalVersion, gin.MustGet,
    gin.ShouldBindJSON_Entry, gin.ShouldBindJSON_Version, mongo.FindOne,
    mongo.round_trip, bind.
  cbn. rewrite Hfault. cbn. split; [done|].
  intros userID o Hkey Hbody. rewrite Hkey, Hbody. cbn. by rewrite Hfault.
Qed.

(** X6. A body the JSON decoder refuses is answered 400 with the decoder's
    own message as ["error"], by creation (given a user in the context) and
    by append, set-current-version and set-status (given the key
    ["userID"]) alike, before any call of the store, clock or id generator:
    the world is as before. *)
Theorem undecodable_body_is_refused (c : gin.Context) (w : World) (err : string) :
  gin.Payload c = inl err ->
  (forall user, gin.Get c "user" = Some (AnyUser user) ->
     journal.CreateJournalEntry env c w = (Reply StatusBadRequest (gin.error err), w))
  /\ (forall userID, gin.Get c "userID" = Some (AnyString userID) ->
        journal.UpdateJournalEntry env c w = (Reply StatusBadRequest (gin.error err), w)
        /\ journal.SetJournalVersion env c w = (Reply StatusBadRequest (gin.error err), w)
        /\ journal.SetJournalStatus env c w = (Reply StatusBadRequest (gin.error err), w)).
Proof.
  intros Hbody. split.
  - intros user Hget. unfold journal.CreateJournalEntry, gin.ShouldBindJSON_Entry.
    by rewrite Hget, Hbody.
  - intros userID Hkey.
    unfold journal.UpdateJournalEntry, journal.SetJournalVersion, journal.SetJournalStatus,
      gin.MustGet, gin.ShouldBindJSON_Entry, gin.ShouldBindJSON_Version,
      gin.ShouldBindJSON_Status, bind.
    by rewrite Hkey, Hbody.
Qed.

End journal_more.

Section journal_reads.

Variable env : Env.

Lemma with_param_lookup_ne (key key' value : string) (filter : gmap string bson.Cond) :
  key <> key' -> journal.with_param key value filter !! key' = filter !! key'.
Proof.
  intros Hne. unfold journal.with_param.
  destruct (negb _); [by rewrite lookup_insert_ne|done].
Qed.

Lemma map_Forall_with_param (P : string -> bson.Cond -> Prop) (key value : string)
    (filter : gmap string bson.Cond) :
  filter !! key = None ->
  map_Forall P (journal.with_param key value filter)
  <-> (value <> EmptyString -> P key (bson.Is value)) /\ map_Forall P filter.
Proof.
  intros Hnone. unfold journal.with_param.
  destruct (bool_decide_reflect (value = EmptyString)) as [Heq|Hne]; cbn.
  - intuition.
  - rewrite map_Forall_insert by done. intuition.
Qed.

Lemma holds_array (j : JournalEntry.t) (path value : string) (l : list string) :
  mongo.field j path = Some (AnyStrings l) ->
  mongo.holds env j path (bson.Is value) = true <-> value ∈ l.
Proof. intros Hf. unfold mongo.holds. rewrite Hf. apply bool_decide_eq_true. Qed.

(** The filter of the public listing, member by member. *)
Lemma matches_public_filter (c : gin.Context) (j : JournalEntry.t) :
  mongo.matches env (journal.public_filter c) j = true <-> asked_for env c j.
Proof.
  unfold mongo.matches, journal.public_filter, asked_for.
  rewrite bool_decide_eq_true.
  rewrite map_Forall_with_param
    by (rewrite !with_param_lookup_ne by done; by case_match).
  rewrite map_Forall_with_param
    by (rewrite !with_param_lookup_ne by done; by case_match).
  rewrite map_Forall_with_param
    by (rewrite !with_param_lookup_ne by done; by case_match).
  rewrite map_Forall_with_param
    by (rewrite !with_param_lookup_ne by done; by case_match).
  rewrite map_Forall_with_param by (by case_match).
  rewrite (holds_array j "taxonomy.categories" _ _ eq_refl).
  rewrite (holds_array j "taxonomy.subcategories" _ _ eq_refl).
  rewrite (holds_array j "taxonomy.topics" _ _ eq_refl).
  rewrite (holds_array j "taxonomy.tags" _ _ eq_refl).
  assert (mongo.holds env j "user_id" (bson.Is (gin.Query c "user")) = true
          <-> JournalEntry.UserID j = gin.Query c "user") as ->.
  { cbn. apply bool_decide_eq_true. }
  destruct (bool_decide_reflect (gin.Query c "start" = EmptyString)) as [Hs|Hs]; cbn.
  - rewrite map_Forall_singleton. cbn. rewrite bool_decide_eq_true. tauto.
  - destruct (bool_decide_reflect (gin.Query c "end" = EmptyString)) as [He|He]; cbn.
    + rewrite map_Forall_singleton. cbn. rewrite bool_decide_eq_true. tauto.
    + rewrite map_Forall_insert by done. rewrite map_Forall_singleton. cbn.
      rewrite bool_decide_eq_true. tauto.
Qed.

(** X7. With the store answering, the public listing is exactly the stored
    journals with status ["public"] that meet every query parameter given:
    category, subcategory, topic and tag occur in the taxonomy's list, user
    is the owner, and the creation time lies in the range, which is asked
    for only when both [start] and [end] are given. *)
Theorem GetPublicJournals_lists_what_is_asked_for (c : gin.Context) (w : World) :
  fault env (round_trips w) = false ->
  fault env (S (round_trips w)) = false ->
  exists listed,
    fst (journal.GetPublicJournals env c w) = Reply StatusOK (Journals listed)
    /\ forall j, j ∈ listed <-> j ∈ journalCollection w /\ asked_for env c j.
Proof.
  intros H1 H2.
  unfold journal.GetPublicJournals, mongo.Find, mongo.round_trip, bind. cbn.
  rewrite H1. cbn. rewrite H2. cbn.
  eexists. split; [reflexivity|].
  intros j. rewrite <- matches_public_filter, list_elem_of_In, filter_In, list_elem_of_In.
  done.
Qed.

(** X8. With the store answering, the listing of a user is the stored
    journals of that owner, in stored order, whatever their status. *)
Theorem GetUserJournals_lists_every_status (c : gin.Context) (w : World) :
  fault env (round_trips w) = false ->
  fault env (S (round_trips w)) = false ->
  fst (journal.GetUserJournals env c w)
  = Reply StatusOK
      (Journals (List.filter
                   (fun j => bool_decide (JournalEntry.UserID j = gin.Param c "userid"))
                   (journalCollection w))).
Proof.
  intros H1 H2.
  unfold journal.GetUserJournals, mongo.Find, mongo.round_trip, bind. cbn.
  rewrite H1. cbn. rewrite H2. cbn.
  do 2 f_equal. apply filter_ext. intros j.
  unfold mongo.matches.
  apply bool_decide_ext. rewrite map_Forall_singleton. cbn.
  apply bool_decide_eq_true.
Qed.

(** What the engine's middleware leaves of a request. *)
Lemma extractIdentifierMiddleware_request (c : gin.Context) (w : World) :
  exists c',
    main.extractIdentifierMiddleware env c w = (Ret c', w)
    /\ gin.Params c' = gin.Params c
    /\ gin.QueryArgs c' = gin.QueryArgs c
    /\ gin.Cookies c' = gin.Cookies c
    /\ gin.Payload c' = gin.Payload c
    /\ forall key, key <> "identifier" -> gin.Get c' key = gin.Get c key.
Proof.
  unfold main.extractIdentifierMiddleware.
  repeat case_match; eexists; (split; [reflexivity|]); repeat (split; [reflexivity|]);
    intros key Hkey; unfold gin.Get, gin.SetKey; cbn; by rewrite ?lookup_insert_ne.
Qed.

(** The authentication middleware reads the users and writes nothing. *)
Lemma AuthMiddleware_collections (required : bool) (c : gin.Context) (w : World) :
  journalCollection (snd (auth.AuthMiddleware env required c w)) = journalCollection w
  /\ usersCollection (snd (auth.AuthMiddleware env required c w)) = usersCollection w.
Proof.
  unfold auth.AuthMiddleware, auth.not_authenticated, mongo.FindUser, mongo.round_trip, bind.
  cbn.
  destruct (gin.Cookie c "token") as [token|]; [|by destruct required].
  destruct (ParseWithClaims env token) as [id|]; [|by destruct required].
  destruct (negb (fault env (round_trips w))); cbn; [|by destruct required].
  destruct (List.find _ _) as [user|]; [done|by destruct required].
Qed.

Lemma read_handlers_collections (r : journal.Route) (c : gin.Context) (w : World) :
  owner_mutation r = false -> r <> journal.POST_root ->
  journalCollection (snd (journal.handler env r c w)) = journalCollection w
  /\ usersCollection (snd (journal.handler env r c w)) = usersCollection w.
Proof.
  intros Hr Hpost.
  destruct r; try done; cbn;
    unfold journal.GetPublicJournals, journal.GetUserJournals, journal.GetJournalEntry,
      journal.GetJournalMeta, journal.GetJournalVersions, mongo.Find, mongo.FindOne,
      mongo.round_trip, bind; cbn;
    destruct (fault env (round_trips w)); cbn; try done.
  - by destruct (fault env (S (round_trips w))).
  - by destruct (fault env (S (round_trips w))).
  - destruct (List.find _ _); [|done]. by destruct (journal.identity_present c).
  - by destruct (List.find _ _).
  - by destruct (List.find _ _).
Qed.

(** X9. A request on a reading route (public listing, listing of a user,
    one journal, metadata, versions) leaves the journals and the users as
    they were, whatever it carries and whether or not the store answers. *)
Theorem read_routes_change_nothing (r : journal.Route) (c : gin.Context) (w : World) :
  owner_mutation r = false -> r <> journal.POST_root ->
  journalCollection (snd (journal.serve env r c w)) = journalCollection w
  /\ usersCollection (snd (journal.serve env r c w)) = usersCollection w.
Proof.
  intros Hr Hpost.
  unfold journal.serve, bind.
  destruct (extractIdentifierMiddleware_request (gin.reset c) w) as (c1 & -> & _).
  destruct (journal.protected r).
  - pose proof (AuthMiddleware_collections true c1 w) as Hauth.
    destruct (auth.AuthMiddleware env true c1 w) as [[c2| |] w2]; cbn in Hauth; [|done..].
    destruct (read_handlers_collections r c2 w2 Hr Hpost) as [-> ->]. done.
  - by apply read_handlers_collections.
Qed.

End journal_reads.

Section journal_routes.

Variable env : Env.

(** X10. Through the route [GET /:journalid] a stored journal is
    answered by its entry appended last alone, without creation and update
    time, whatever cookie the request carries: the route has no
    authentication middleware, so the full view of [GetJournalEntry] is out
    of reach. *)
Theorem GET_journal_never_shows_history (c : gin.Context) (w : World)
    (j : JournalEntry.t) (latest : Entry.t) :
  fault env (round_trips w) = false ->
  List.find (mongo.matches env (journal.id_filter (gin.Param c "journalid")))
            (journalCollection w) = Some j ->
  last (JournalEntry.Entries j) = Some latest ->
  exists h,
    fst (journal.serve env journal.GET_journal c w) = Reply StatusOK (H h)
    /\ h !! "entries" = Some (AnyEntries [latest])
    /\ h !! "createdAt" = None
    /\ h !! "updatedAt" = None.
Proof.
  intros Hfault Hfind Hlast.
  unfold journal.serve, bind.
  destruct (extractIdentifierMiddleware_request env (gin.reset c) w)
    as (c1 & -> & Hparams & _ & _ & _ & Hkeys).
  cbn.
  unfold journal.GetJournalEntry, journal.identity_present, gin.Param.
  rewrite Hparams, Hkeys by done.
  change (gin.Get (gin.reset c) "user") with ((∅ : gmap string any) !! "user").
  rewrite lookup_empty.
  change (default EmptyString (gin.Params (gin.reset c) !! "journalid"))
    with (gin.Param c "journalid").
  store_answers Hfault. rewrite Hfind.
  eexists. split; [reflexivity|]. split; [|split; reflexivity].
  rewrite lookup_insert_eq. do 2 f_equal.
  rewrite last_lookup in Hlast.
  assert (0 < length (JournalEntry.Entries j))%nat as Hlen.
  { destruct (JournalEntry.Entries j); [done|cbn; lia]. }
  rewrite bool_decide_true by done.
  replace (length (JournalEntry.Entries j) - 1)%nat
    with (Nat.pred (length (JournalEntry.Entries j))) by lia.
  by rewrite Hlast.
Qed.

(** What the protected group does with the cookie of a registered user. *)
Lemma before_handler_authenticates (r : journal.Route) (c : gin.Context) (w : World)
    (token : string) (user : User.t) :
  journal.protected r = true ->
  gin.Cookie c "token" = Some token ->
  ParseWithClaims env token = Some (User.ID user) ->
  fault env (round_trips w) = false ->
  List.find (fun u => bool_decide (User.ID u = User.ID user)) (usersCollection w)
  = Some user ->
  exists c',
    before_handler env r c w
    = (Ret c', mkWorld (journalCollection w) (usersCollection w) (clock_reads w)
                 (S (round_trips w)) (ids_drawn w))
    /\ gin.Get c' "user" = Some (AnyUser user)
    /\ gin.Params c' = gin.Params c
    /\ gin.Payload c' = gin.Payload c.
Proof.
  intros Hprot Hcookie Hparse Hfault Huser.
  unfold before_handler, bind. rewrite Hprot.
  destruct (extractIdentifierMiddleware_request env (gin.reset c) w)
    as (c1 & -> & Hparams & _ & Hcookies & Hpayload & _).
  unfold auth.AuthMiddleware, gin.Cookie, mongo.FindUser, mongo.round_trip, bind.
  rewrite Hcookies. cbn. unfold gin.Cookie in Hcookie. rewrite Hcookie, Hparse. cbn.
  rewrite Hfault. cbn. rewrite Huser.
  eexists. split; [reflexivity|]. split.
  - unfold gin.Get, gin.SetKey. cbn. apply lookup_insert_eq.
  - cbn. by rewrite Hparams, Hpayload.
Qed.

Lemma serve_is_handler_after (r : journal.Route) (c c' : gin.Context) (w w' : World) :
  before_handler env r c w = (Ret c', w') ->
  journal.serve env r c w = journal.handler env r c' w'.
Proof.
  unfold journal.serve, before_handler, bind.
  destruct (main.extractIdentifierMiddleware env (gin.reset c) w) as [[c1| |] w1]; [|done..].
  destruct (if journal.protected r then _ else _) as [[c2| |] w2]; [|done..].
  by intros [= -> ->].
Qed.

(** X11. Through the route [GET /:journalid/versions] a request with the
    cookie of any registered user is answered with all entries of the
    journal of the path: the owner of the journal is not looked at. *)
Theorem GET_versions_serves_any_registered_user (c : gin.Context) (w : World)
    (token : string) (user : User.t) (j : JournalEntry.t) :
  gin.Cookie c "token" = Some token ->
  ParseWithClaims env token = Some (User.ID user) ->
  List.find (fun u => bool_decide (User.ID u = User.ID user)) (usersCollection w)
  = Some user ->
  fault env (round_trips w) = false ->
  fault env (S (round_trips w)) = false ->
  List.find (mongo.matches env (journal.id_filter (gin.Param c "journalid")))
            (journalCollection w) = Some j ->
  fst (journal.serve env journal.GET_versions c w)
  = Reply StatusOK (EntryList (JournalEntry.Entries j)).
Proof.
  intros Hcookie Hparse Huser Hf1 Hf2 Hfind.
  destruct (before_handler_authenticates journal.GET_versions c w token user
              eq_refl Hcookie Hparse Hf1 Huser) as (c' & Hbefore & _ & Hparams & _).
  rewrite (serve_is_handler_after _ _ _ _ _ Hbefore). cbn.
  unfold journal.GetJournalVersions, gin.Param. rewrite Hparams.
  fold (gin.Param c "journalid").
  unfold mongo.FindOne, mongo.round_trip, bind. cbn. rewrite Hf2. cbn.
  by rewrite Hfind.
Qed.

(** X12. Through the route [POST /] a request with the cookie of a
    registered user and a decodable body is answered 201; the new journal
    is added after the stored ones, its owner is the user of the cookie, its
    id the generated one, its status ["pending"], its taxonomy and summary
    empty. *)
Theorem POST_creates_for_the_cookie_user (c : gin.Context) (w : World)
    (token : string) (user : User.t) (o : gin.Object) :
  gin.Cookie c "token" = Some token ->
  ParseWithClaims env token = Some (User.ID user) ->
  List.find (fun u => bool_decide (User.ID u = User.ID user)) (usersCollection w)
  = Some user ->
  gin.Payload c = inr o ->
  fault env (round_trips w) = false ->
  fault env (S (round_trips w)) = false ->
  exists j,
    fst (journal.serve env journal.POST_root c w) = Reply StatusCreated (Journal j)
    /\ journalCollection (snd (journal.serve env journal.POST_root c w))
       = journalCollection w ++ [j]
    /\ JournalEntry.UserID j = User.ID user
    /\ JournalEntry.JournalID j = uuid env (ids_drawn w)
    /\ JournalEntry.Status j = "pending"
    /\ JournalEntry.Taxonomy j = Taxonomy.zero
    /\ JournalEntry.Summary j = EmptyString.
Proof.
  intros Hcookie Hparse Huser Hbody Hf1 Hf2.
  destruct (before_handler_authenticates journal.POST_root c w token user
              eq_refl Hcookie Hparse Hf1 Huser) as (c' & Hbefore & Hget & _ & Hpayload).
  rewrite (serve_is_handler_after _ _ _ _ _ Hbefore). cbn [journal.handler].
  rewrite <- Hpayload in Hbody.
  destruct (CreateJournalEntry_stores env c'
              (mkWorld (journalCollection w) (usersCollection w) (clock_reads w)
                (S (round_trips w)) (ids_drawn w))
              user o Hget Hbody Hf2) as [Hreply Hdocs].
  eexists. split; [exact Hreply|]. split; [exact Hdocs|]. repeat split.
Qed.

(** X13. A journal created through [POST /] reads back through
    [GET /:journalid] under the generated id (when no stored journal has
    that id): the reply has one entry, with the version, title, content
    and attachments of the body as it was posted; the owner is the user of
    the cookie, the pointer 1 and the status ["pending"]. *)
Theorem created_journal_reads_back (c c' : gin.Context) (w : World)
    (token : string) (user : User.t) (o : gin.Object) :
  gin.Cookie c "token" = Some token ->
  ParseWithClaims env token = Some (User.ID user) ->
  List.find (fun u => bool_decide (User.ID u = User.ID user)) (usersCollection w)
  = Some user ->
  gin.Payload c = inr o ->
  (forall n, fault env n = false) ->
  (forall j, j ∈ journalCollection w ->
     JournalEntry.JournalID j <> uuid env (ids_drawn w)) ->
  gin.Param c' "journalid" = uuid env (ids_drawn w) ->
  exists h e,
    fst (journal.serve env journal.GET_journal c'
           (snd (journal.serve env journal.POST_root c w)))
    = Reply StatusOK (H h)
    /\ h !! "entries" = Some (AnyEntries [e])
    /\ Entry.Version e = gin.o_version o
    /\ Entry.Title e = gin.o_title o
    /\ Entry.Content e = gin.o_content o
    /\ Entry.Attachments e = gin.o_attachments o
    /\ h !! "userID" = Some (AnyString (User.ID user))
    /\ h !! "version" = Some (AnyInt 1)
    /\ h !! "status" = Some (AnyString "pending").
Proof.
  intros Hcookie Hparse Huser Hbody Hfault Hfresh Hparam.
  destruct (before_handler_authenticates journal.POST_root c w token user
              eq_refl Hcookie Hparse (Hfault _) Huser)
    as (c1 & Hbefore & Hget & _ & Hpayload).
  rewrite (serve_is_handler_after _ _ _ _ _ Hbefore). cbn [journal.handler].
  rewrite <- Hpayload in Hbody.
  destruct (CreateJournalEntry_stores env c1
              (mkWorld (journalCollection w) (usersCollection w) (clock_reads w)
                (S (round_trips w)) (ids_drawn w))
              user o Hget Hbody (Hfault _)) as [_ Hdocs].
  cbn [journalCollection ids_drawn clock_reads] in Hdocs.
  set (w1 := snd (journal.CreateJournalEntry env c1 _)) in *.
  unfold journal.serve, bind.
  destruct (extractIdentifierMiddleware_request env (gin.reset c') w1)
    as (c2 & -> & Hparams & _ & _ & _ & Hkeys).
  cbn.
  unfold journal.GetJournalEntry, journal.identity_present, gin.Param.
  rewrite Hparams, Hkeys by done.
  change (gin.Get (gin.reset c') "user") with ((∅ : gmap string any) !! "user").
  rewrite lookup_empty.
  change (default EmptyString (gin.Params (gin.reset c') !! "journalid"))
    with (gin.Param c' "journalid").
  rewrite Hparam.
  unfold mongo.FindOne, mongo.round_trip, bind. cbn. rewrite Hfault. cbn.
  rewrite Hdocs.
  rewrite find_app_none.
  2:{ destruct (List.find _ (journalCollection w)) as [x|] eqn:Hx; [|done].
      apply find_some in Hx as [Hin Hx%matches_id_filter].
      apply list_elem_of_In in Hin. by destruct (Hfresh x Hin). }
  cbn.
  replace (mongo.matches env _ _) with true
    by (symmetry; by apply matches_id_filter).
  eexists _, _. split; [reflexivity|]. split; [reflexivity|]. repeat split.
Qed.

End journal_routes.

Lemma find_none_of_filter_nil {A} (p : A -> bool) (l : list A) :
  List.filter p l = [] -> List.find p l = None.
Proof.
  induction l as [|x l IH]; [done|].
  cbn. destruct (p x); [done|]. exact IH.
Qed.

Lemma find_pointwise {A} (p q : A -> bool) (l : list A) :
  (forall x, p x = q x) -> List.find p l = List.find q l.
Proof.
  intros Hpq. induction l as [|x l IH]; [done|].
  cbn. by rewrite Hpq, IH.
Qed.

Section journal_sequences.

Variable env : Env.

Lemma absent_journal_is_not_found (c : gin.Context) (w : World) :
  fault env (round_trips w) = false ->
  List.find (mongo.matches env (journal.id_filter (gin.Param c "journalid")))
            (journalCollection w) = None ->
  fst (journal.GetJournalEntry env c w)
  = Reply StatusNotFound (gin.error "Journal entry not found")
  /\ fst (journal.GetJournalMeta env c w)
     = Reply StatusNotFound (gin.error "Journal entry not found").
Proof.
  intros Hfault Hnone.
  unfold journal.GetJournalEntry, journal.GetJournalMeta.
  store_answers Hfault. by rewrite Hnone.
Qed.

(** X14. After a set-status to ["public"] on a stored journal of the
    owner, the public listing without query parameters contains that
    journal, with the new status and update time. *)
Theorem published_journal_is_listed (c c' : gin.Context) (w : World)
    (userID : string) (j : JournalEntry.t) :
  gin.Get c "userID" = Some (AnyString userID) ->
  gin.ShouldBindJSON_Status c = inr "public" ->
  (forall n, fault env n = false) ->
  List.find (mongo.matches env (journal.owner_filter (gin.Param c "journalid") userID))
            (journalCollection w) = Some j ->
  gin.QueryArgs c' = ∅ ->
  exists listed,
    fst (journal.GetPublicJournals env c' (snd (journal.SetJournalStatus env c w)))
    = Reply StatusOK (Journals listed)
    /\ retag "public" (wall env (clock_reads w)) j ∈ listed.
Proof.
  intros Hkey Hbind Hfault Hfind Hquery.
  destruct (find_split _ _ _ Hfind) as (before & after & Hdocs & Hbefore & Hj).
  unfold journal.SetJournalStatus, gin.MustGet, bind.
  rewrite Hkey. cbn. rewrite Hbind. cbn.
  unfold mongo.UpdateOne, mongo.round_trip, bind. cbn. rewrite Hfault. cbn.
  unfold journal.GetPublicJournals, mongo.Find, mongo.round_trip, bind. cbn.
  rewrite Hfault. cbn. rewrite Hfault. cbn.
  eexists. split; [reflexivity|].
  rewrite Hdocs, update_first_split by done.
  apply list_elem_of_In, filter_In. split.
  - apply in_or_app. right. by left.
  - apply matches_public_filter. unfold asked_for, gin.Query. rewrite Hquery.
    rewrite !lookup_empty. cbn. split; [done|].
    split; [intros Hne; by destruct Hne|].
    do 4 (split; [intros Hne; by destruct Hne|]).
    intros Hne; by destruct Hne.
Qed.

(** X15. When one stored journal has the id of the path and it belongs to
    the owner of the context, a delete is answered 200, the collection has
    one document less, and reading that id or its metadata afterwards is
    answered 404. *)
Theorem deleted_journal_is_not_found (c c' : gin.Context) (w : World)
    (userID : string) (j : JournalEntry.t) :
  gin.Get c "userID" = Some (AnyString userID) ->
  (forall n, fault env n = false) ->
  JournalEntry.UserID j = userID ->
  List.filter (fun d => bool_decide (JournalEntry.JournalID d = gin.Param c "journalid"))
              (journalCollection w) = [j] ->
  gin.Param c' "journalid" = gin.Param c "journalid" ->
  fst (journal.DeleteJournalEntry env c w)
  = Reply StatusOK (gin.message "Journal entry deleted")
  /\ length (journalCollection (snd (journal.DeleteJournalEntry env c w)))
     = pred (length (journalCollection w))
  /\ fst (journal.GetJournalEntry env c' (snd (journal.DeleteJournalEntry env c w)))
     = Reply StatusNotFound (gin.error "Journal entry not found")
  /\ fst (journal.GetJournalMeta env c' (snd (journal.DeleteJournalEntry env c w)))
     = Reply StatusNotFound (gin.error "Journal entry not found").
Proof.
  intros Hkey Hfault Howner Hunique Hparam.
  set (byid := fun d => bool_decide (JournalEntry.JournalID d = gin.Param c "journalid")) in *.
  assert (In j (journalCollection w) /\ byid j = true) as [Hin Hid].
  { apply filter_In. rewrite Hunique. left. reflexivity. }
  assert (mongo.matches env (journal.owner_filter (gin.Param c "journalid") userID) j = true)
    as Hj.
  { apply matches_owner_filter. split; [|exact Howner].
    apply bool_decide_eq_true in Hid. exact Hid. }
  destruct (List.find (mongo.matches env (journal.owner_filter (gin.Param c "journalid") userID))
              (journalCollection w)) as [x|] eqn:Hfind.
  2:{ rewrite (find_none _ _ Hfind j Hin) in Hj. discriminate Hj. }
  destruct (find_split _ _ _ Hfind) as (before & after & Hdocs & Hbefore & Hx).
  rewrite Hdocs, List.filter_app in Hunique. cbn in Hunique.
  assert (byid x = true) as Hxid.
  { apply bool_decide_eq_true. apply matches_owner_filter in Hx as [Hx _]. exact Hx. }
  rewrite Hxid in Hunique.
  assert (List.filter byid before = [] /\ List.filter byid after = []) as [Hb Ha].
  { destruct (List.filter byid before) as [|y l].
    - cbn in Hunique. split; [reflexivity|]. congruence.
    - destruct l; discriminate Hunique. }
  assert (journalCollection (snd (journal.DeleteJournalEntry env c w)) = before ++ after)
    as Hafter.
  { unfold journal.DeleteJournalEntry, gin.MustGet, bind. rewrite Hkey. cbn.
    store_answers (Hfault (round_trips w)).
    rewrite Hdocs. by apply delete_first_split. }
  assert (fst (journal.DeleteJournalEntry env c w)
          = Reply StatusOK (gin.message "Journal entry deleted")) as Hreply.
  { unfold journal.DeleteJournalEntry, gin.MustGet, bind. rewrite Hkey. cbn.
    by store_answers (Hfault (round_trips w)). }
  split; [exact Hreply|]. split.
  { rewrite Hafter, Hdocs, !length_app. cbn. lia. }
  apply absent_journal_is_not_found; [apply Hfault|].
  rewrite Hafter, Hparam.
  assert (forall d, mongo.matches env (journal.id_filter (gin.Param c "journalid")) d
                    = byid d) as Hsame.
  { intros d. unfold mongo.matches, journal.id_filter, byid. apply bool_decide_ext.
    rewrite map_Forall_singleton. cbn. apply bool_decide_eq_true. }
  rewrite (find_pointwise _ _ _ Hsame).
  apply find_none_of_filter_nil. by rewrite List.filter_app, Hb, Ha.
Qed.

(** ** The authentication middleware *)

(** X16. The authentication middleware in its optional form never ends a
    request: the next handler gets the context as it came, or with the
    record of a registered user under ["user"]. *)
Theorem optional_authentication_never_refuses (c : gin.Context) (w : World) :
  exists c',
    fst (auth.AuthMiddleware env false c w) = Ret c'
    /\ gin.Params c' = gin.Params c
    /\ gin.Payload c' = gin.Payload c
    /\ (c' = c \/ exists user, user ∈ usersCollection w
                               /\ c' = gin.SetKey c "user" (AnyUser user)).
Proof.
  unfold auth.AuthMiddleware, auth.not_authenticated, mongo.FindUser, mongo.round_trip, bind.
  cbn.
  destruct (gin.Cookie c "token") as [token|]; [|exists c; by repeat split; try left].
  destruct (ParseWithClaims env token) as [id|]; [|exists c; by repeat split; try left].
  destruct (negb (fault env (round_trips w))); cbn;
    [|exists c; by repeat split; try left].
  destruct (List.find _ _) as [user|] eqn:Huser; [|exists c; by repeat split; try left].
  eexists. split; [reflexivity|]. split; [done|]. split; [done|].
  right. exists user. split; [|done].
  apply find_some in Huser as [Hin _]. by apply list_elem_of_In.
Qed.

(** X17. The authentication middleware in its required form lets a
    request through only if it carries a cookie ["token"] that verifies,
    with an Id claim that is the id of a stored user; the context then
    holds that user under ["user"], one lookup was made, and journals and
    users are as before. *)
Theorem required_authentication_admits_token_owner (c c' : gin.Context) (w w' : World) :
  auth.AuthMiddleware env true c w = (Ret c', w') ->
  exists token user,
    gin.Cookie c "token" = Some token
    /\ ParseWithClaims env token = Some (User.ID user)
    /\ user ∈ usersCollection w
    /\ fault env (round_trips w) = false
    /\ c' = gin.SetKey c "user" (AnyUser user)
    /\ round_trips w' = S (round_trips w)
    /\ journalCollection w' = journalCollection w
    /\ usersCollection w' = usersCollection w.
Proof.
  unfold auth.AuthMiddleware, auth.not_authenticated, mongo.FindUser, mongo.round_trip, bind.
  cbn.
  destruct (gin.Cookie c "token") as [token|]; [|done].
  destruct (ParseWithClaims env token) as [id|] eqn:Hparse; [|done].
  destruct (fault env (round_trips w)) eqn:Hfault; cbn; [done|].
  destruct (List.find _ _) as [user|] eqn:Huser; [|done].
  intros [= <- <-]. exists token, user.
  apply find_some in Huser as [Hin Hid]. apply bool_decide_eq_true in Hid.
  rewrite Hid. repeat split; try done. by apply list_elem_of_In.
Qed.

(** X18. Without a cookie ["token"], or with one that does not verify,
    the required middleware answers 401 and the optional one passes the
    context on unchanged; neither makes a call to the store. *)
Theorem missing_or_bad_token_costs_no_lookup (c : gin.Context) (w : World) :
  (gin.Cookie c "token" = None
   \/ exists token, gin.Cookie c "token" = Some token /\ ParseWithClaims env token = None) ->
  auth.AuthMiddleware env true c w
  = (Reply StatusUnauthorized (gin.error "Not authenticated"), w)
  /\ auth.AuthMiddleware env false c w = (Ret c, w).
Proof.
  unfold auth.AuthMiddleware, auth.not_authenticated.
  intros [-> | (token & -> & ->)]; done.
Qed.

End journal_sequences.

(** ** The identifier of a request *)

Lemma rev_app_append (s acc : string) : String.rev_app s acc = String.rev s +:+ acc.
Proof.
  unfold String.rev. revert acc.
  induction s as [|a s IH]; intros acc; [done|].
  cbn. rewrite IH, (IH (String a EmptyString)), append_assoc. done.
Qed.

Lemma append_empty_r (s : string) : s +:+ EmptyString = s.
Proof.
  induction s as [|a s IH]; [done|].
  change (String a (s +:+ EmptyString) = String a s). by rewrite IH.
Qed.

Lemma split_at_length (sep : Ascii.ascii) (s cur : string) :
  length (Go.split_at sep s cur) = S (occurrences sep s).
Proof.
  revert cur. induction s as [|a s IH]; intros cur; [done|].
  cbn. destruct (Ascii.eqb a sep); cbn; by rewrite IH.
Qed.

Lemma split_at_head (sep : Ascii.ascii) (s cur : string) :
  head (Go.split_at sep s cur) = Some (String.rev cur +:+ up_to sep s).
Proof.
  revert cur. induction s as [|a s IH]; intros cur; cbn.
  - by rewrite append_empty_r.
  - destruct (Ascii.eqb a sep); cbn.
    + by rewrite append_empty_r.
    + rewrite IH. f_equal. unfold String.rev. cbn.
      rewrite (rev_app_append cur (String a EmptyString)), append_assoc. done.
Qed.

(** X19. [extractSubdomain] returns the label before the first dot of the
    host name (the host without its port, when it has one) if the host name
    has at least two dots, and the empty string otherwise. *)
Theorem extractSubdomain_is_first_of_three_labels (env : Env) (host : string) :
  let hostname := default host (SplitHostPort env host) in
  main.extractSubdomain env host
  = if bool_decide (2 <= occurrences "."%char hostname)%nat
    then up_to "."%char hostname
    else EmptyString.
Proof.
  intros hostname. unfold main.extractSubdomain.
  assert (match SplitHostPort env host with Some h => h | None => host end = hostname)
    as -> by (subst hostname; by destruct (SplitHostPort env host)).
  unfold Go.Split.
  pose proof (split_at_length "."%char hostname EmptyString) as Hlen.
  pose proof (split_at_head "."%char hostname EmptyString) as Hhead.
  destruct (Go.split_at "."%char hostname EmptyString) as [|p parts]; [done|].
  cbn in Hhead. injection Hhead as ->.
  rewrite Hlen.
  destruct (bool_decide_reflect (2 <= occurrences "."%char hostname)%nat).
  - rewrite bool_decide_true by lia. done.
  - rewrite bool_decide_false by lia. done.
Qed.

(** ** Further properties of the image stores *)

(** X20. The local image store: when the file cannot be created nothing
    changes; when reading the upload fails after [n] bytes the call fails,
    and the file of that name holds those [n] bytes, in place of what was
    stored there before. *)
Theorem LocalImageStore_failed_copy_clobbers (Join : string -> string -> string)
    (l : profile.LocalImageStore) (userID filename : string) (file : profile.File)
    (sys : profile.System) :
  let path := Join (profile.BasePath l) (profile.imageName userID filename) in
  let out := profile.LocalImageStore_SaveImage Join l userID filename file sys in
  (profile.creatable sys path = false -> out = (None, sys))
  /\ (forall n, profile.creatable sys path = true -> profile.broken_at file = Some n ->
        fst out = None
        /\ profile.files (snd out) !! path = Some (take n (profile.data file))).
Proof.
  intros path out. subst out path.
  unfold profile.LocalImageStore_SaveImage, profile.create_and_copy. split.
  - by intros ->.
  - intros n -> ->. cbn. split; [done|]. apply lookup_insert_eq.
Qed.

(** X21. When [SaveImage] of the object store fails, because the store
    is out of reach or reading the upload failed, nothing at all changed. *)
Theorem S3ImageStore_failure_stores_nothing (s : profile.S3ImageStore)
    (userID filename : string) (file : profile.File) (sys : profile.System) :
  fst (profile.S3ImageStore_SaveImage s userID filename file sys) = None ->
  snd (profile.S3ImageStore_SaveImage s userID filename file sys) = sys
  /\ (profile.s3_up sys = false \/ exists n, profile.broken_at file = Some n).
Proof.
  unfold profile.S3ImageStore_SaveImage, profile.PutObject.
  destruct (profile.s3_up sys); [|intros _; split; [done|by left]].
  destruct (profile.broken_at file) as [n|]; [intros _; split; [done|right; by exists n]|].
  by destruct (negb _).
Qed.

(** X22. [SaveImage] writes at one place only: the local store leaves
    every other path, the bucket contents and the environment as they were,
    the object store every other bucket and key, the files and the
    environment. *)
Theorem SaveImage_writes_one_place (Join : string -> string -> string)
    (l : profile.LocalImageStore) (s : profile.S3ImageStore)
    (userID filename : string) (file : profile.File) (sys : profile.System) :
  let local := snd (profile.LocalImageStore_SaveImage Join l userID filename file sys) in
  let remote := snd (profile.S3ImageStore_SaveImage s userID filename file sys) in
  (forall path, path <> Join (profile.BasePath l) (profile.imageName userID filename) ->
     profile.files local !! path = profile.files sys !! path)
  /\ profile.objects local = profile.objects sys
  /\ (forall bucket key,
        (bucket, key) <> (profile.BucketName s, profile.imageName userID filename) ->
        profile.objects remote !! (bucket, key) = profile.objects sys !! (bucket, key))
  /\ profile.files remote = profile.files sys
  /\ profile.environ local = profile.environ sys
  /\ profile.environ remote = profile.environ sys.
Proof.
  intros local remote. subst local remote.
  unfold profile.LocalImageStore_SaveImage, profile.create_and_copy,
    profile.S3ImageStore_SaveImage, profile.PutObject.
  split; [|split; [|split; [|split; [|split]]]].
  - intros path Hpath. destruct (profile.creatable sys _); [|done].
    destruct (profile.broken_at file); cbn; by rewrite lookup_insert_ne.
  - destruct (profile.creatable sys _); [|done]. by destruct (profile.broken_at file).
  - intros bucket key Hkey. destruct (profile.s3_up sys); [|done].
    destruct (profile.broken_at file); [done|].
    destruct (negb _); cbn; by rewrite lookup_insert_ne.
  - destruct (profile.s3_up sys); [|done].
    destruct (profile.broken_at file); [done|]. by destruct (negb _).
  - destruct (profile.creatable sys _); [|done]. by destruct (profile.broken_at file).
  - destruct (profile.s3_up sys); [|done].
    destruct (profile.broken_at file); [done|]. by destruct (negb _).
Qed.

(** X23. The name [{userID}-{filename}] does not tell two owners apart:
    owner [u-p] with file [r] and owner [u] with file [p-r] get the same
    name, so in the object store an upload of the one replaces the image of
    the other. *)
Theorem image_names_of_two_owners_collide (s : profile.S3ImageStore)
    (userID part rest : string) (mine theirs : profile.File) (sys : profile.System) :
  profile.imageName (userID +:+ "-" +:+ part) rest
  = profile.imageName userID (part +:+ "-" +:+ rest)
  /\ (profile.s3_up sys = true ->
      profile.broken_at mine = None -> profile.broken_at theirs = None ->
      let sys1 := snd (profile.S3ImageStore_SaveImage s userID (part +:+ "-" +:+ rest)
                         mine sys) in
      let sys2 := snd (profile.S3ImageStore_SaveImage s (userID +:+ "-" +:+ part) rest
                         theirs sys1) in
      profile.s3_blob_at s (profile.imageName userID (part +:+ "-" +:+ rest)) sys1
      = Some (profile.data mine)
      /\ profile.s3_blob_at s (profile.imageName userID (part +:+ "-" +:+ rest)) sys2
         = Some (profile.data theirs)).
Proof.
  assert (profile.imageName (userID +:+ "-" +:+ part) rest
          = profile.imageName userID (part +:+ "-" +:+ rest)) as Hname.
  { unfold profile.imageName. by rewrite !append_assoc. }
  split; [exact Hname|].
  intros Hup Hmine Htheirs sys1 sys2. subst sys1 sys2.
  unfold profile.S3ImageStore_SaveImage, profile.PutObject, profile.s3_blob_at.
  rewrite Hname, Hup, Hmine.
  destruct (negb _); cbn; rewrite Htheirs;
    (destruct (negb _); cbn; split; by rewrite ?lookup_insert_eq).
Qed.

(** ** Upserts *)

Lemma existsb_find {A} (p : A -> bool) (l : list A) :
  existsb p l = true <-> exists x, List.find p l = Some x.
Proof.
  induction l as [|y l IH]; cbn.
  - split; [done|by intros [x ?]].
  - destruct (p y); cbn; [split; eauto|exact IH].
Qed.

Lemma existsb_find_none {A} (p : A -> bool) (l : list A) :
  existsb p l = false <-> List.find p l = None.
Proof.
  induction l as [|y l IH]; cbn; [done|].
  destruct (p y); cbn; [split; discriminate|exact IH].
Qed.

(** After an upsert the first match is the updated match, or the fresh
    document when there was none. *)
Lemma find_upsert_first {A} (p : A -> bool) (f : A -> A) (fresh : A) (l : list A) :
  (forall x, p x = true -> p (f x) = true) -> p fresh = true ->
  List.find p (upsert_first p f fresh l)
  = Some (match List.find p l with Some x => f x | None => fresh end).
Proof.
  intros Hf Hfresh. unfold upsert_first.
  destruct (List.find p l) as [x|] eqn:Hfind.
  - rewrite (proj2 (existsb_find p l)) by eauto.
    by rewrite find_update_first, Hfind.
  - rewrite (proj2 (existsb_find_none p l)) by done.
    rewrite find_app_none by done. cbn. by rewrite Hfresh.
Qed.

Lemma filter_upsert_first {A} (p q : A -> bool) (f : A -> A) (fresh : A) (l : list A) :
  (forall x, p x = true -> q x = false /\ q (f x) = false) -> q fresh = false ->
  List.filter q (upsert_first p f fresh l) = List.filter q l.
Proof.
  intros Hpq Hfresh. unfold upsert_first.
  destruct (existsb p l).
  - by apply filter_update_first.
  - rewrite List.filter_app. cbn. rewrite Hfresh. apply app_nil_r.
Qed.

Lemma upsert_first_twice {A} (p : A -> bool) (x : A) (l : list A) :
  p x = true ->
  upsert_first p (fun _ => x) x (upsert_first p (fun _ => x) x l)
  = upsert_first p (fun _ => x) x l.
Proof.
  intros Hx.
  assert (forall l', existsb p l' = true ->
            mongo.update_first p (fun _ => x) (mongo.update_first p (fun _ => x) l')
            = mongo.update_first p (fun _ => x) l') as Htwice.
  { induction l' as [|y l' IH]; [done|].
    cbn. destruct (p y) eqn:Hy; cbn.
    - by rewrite Hx.
    - intros H. by rewrite Hy, IH. }
  assert (forall l', existsb p l' = true ->
            existsb p (mongo.update_first p (fun _ => x) l') = true) as Hstill.
  { induction l' as [|y l' IH]; [done|].
    cbn. destruct (p y) eqn:Hy; cbn.
    - by rewrite Hx.
    - rewrite Hy. exact IH. }
  unfold upsert_first. destruct (existsb p l) eqn:Hl.
  - rewrite Hstill by done. by apply Htwice.
  - rewrite existsb_app. cbn. rewrite Hx, orb_true_r.
    apply update_first_split; [by apply existsb_find_none|done].
Qed.

(** ** The profile handlers *)

Section profile_facts.

Variable Join : string -> string -> string.

Lemma SaveImage_result (store : profiles.ImageStoreValue) (userID filename url : string)
    (file : profile.File) (sys sys' : profile.System) :
  profiles.SaveImage Join store userID filename file sys = (Some url, sys') ->
  profile.ends_with url (profile.imageName userID filename)
  /\ stored_at Join store (profile.imageName userID filename) sys' = Some (profile.data file).
Proof.
  destruct store as [l|s]; cbn.
  - unfold profile.LocalImageStore_SaveImage, profile.create_and_copy, profile.local_blob_at.
    destruct (profile.creatable sys _); [|done].
    destruct (profile.broken_at file); [done|]. intros [= <- <-]. split.
    + apply ends_with_append, ends_with_refl.
    + cbn. apply lookup_insert_eq.
  - unfold profile.S3ImageStore_SaveImage, profile.PutObject, profile.s3_blob_at.
    destruct (profile.s3_up sys); [|done].
    destruct (profile.broken_at file); [done|].
    destruct (negb _); intros [= <- <-]; (split; [|cbn; apply lookup_insert_eq]).
    + do 4 apply ends_with_append. apply ends_with_refl.
    + do 5 apply ends_with_append. apply ends_with_refl.
Qed.

(** X24. [PutImage] with a form file, an image store that takes the
    upload and a store that answers: the reply carries a URL that ends in
    [{userid}-{filename}], the image store holds the bytes under that name,
    and the profile of the user then read is the one stored before with
    that URL as image, or, if there was none, a new profile with the user id
    and the URL only. The profiles of other users stay. *)
Theorem PutImage_records_the_url (store : profiles.ImageStoreValue) (c c' : gin.Context)
    (form : gmap string (string * option profile.File)) (filename : string)
    (file : profile.File) (st : profiles.State) :
  form !! "profileImage" = Some (filename, Some file) ->
  fst (profiles.SaveImage Join store (gin.Param c "userid") filename file (profiles.system st))
  <> None ->
  gin.Param c' "userid" = gin.Param c "userid" ->
  let out := profiles.PutImage Join (Some store) c form true st in
  exists url,
    fst out = profiles.Sent StatusOK {["profileImage" := AnyString url]}
    /\ profile.ends_with url (profile.imageName (gin.Param c "userid") filename)
    /\ stored_at Join store (profile.imageName (gin.Param c "userid") filename)
         (profiles.system (snd out)) = Some (profile.data file)
    /\ fst (profiles.GetProfile c' true (snd out))
       = profiles.SentProfile StatusOK
           (match List.find (profiles.by_user (gin.Param c "userid"))
                    (profiles.profilesCollection st) with
            | Some p => Profile.with_ProfileImg (Some url) p
            | None => Profile.of_image (gin.Param c "userid") url
            end)
    /\ other_profiles (gin.Param c "userid") (profiles.profilesCollection (snd out))
       = other_profiles (gin.Param c "userid") (profiles.profilesCollection st).
Proof.
  intros Hform Hsave Hparam out. subst out.
  unfold profiles.PutImage. rewrite Hform.
  destruct (profiles.SaveImage Join store _ filename file _) as [[url|] sys'] eqn:Hs;
    [|done].
  destruct (SaveImage_result _ _ _ _ _ _ _ Hs) as [Hurl Hblob].
  exists url. cbn. split; [done|]. split; [done|]. split; [done|]. split.
  - unfold profiles.GetProfile. cbn. rewrite Hparam.
    rewrite find_upsert_first; [done| |].
    + intros x Hx. unfold profiles.by_user in *. done.
    + unfold profiles.by_user. by apply bool_decide_eq_true.
  - unfold other_profiles. apply filter_upsert_first.
    + intros x Hx. unfold profiles.by_user in *. cbn. by rewrite Hx.
    + unfold profiles.by_user. cbn. by rewrite bool_decide_true.
Qed.

(** X25. [PutImage] is not all or nothing: when the image store takes the
    upload and then the update of the profile fails, the answer is 500
    ["Could not update profile image"] and the profiles are as before, but
    the image store holds the new bytes. *)
Theorem PutImage_keeps_the_blob_when_the_store_fails (store : profiles.ImageStoreValue)
    (c : gin.Context) (form : gmap string (string * option profile.File))
    (filename : string) (file : profile.File) (st : profiles.State) :
  form !! "profileImage" = Some (filename, Some file) ->
  fst (profiles.SaveImage Join store (gin.Param c "userid") filename file (profiles.system st))
  <> None ->
  let out := profiles.PutImage Join (Some store) c form false st in
  fst out = profiles.Sent StatusInternalServerError
              (profiles.error "Could not update profile image")
  /\ profiles.profilesCollection (snd out) = profiles.profilesCollection st
  /\ stored_at Join store (profile.imageName (gin.Param c "userid") filename)
       (profiles.system (snd out)) = Some (profile.data file).
Proof.
  intros Hform Hsave out. subst out.
  unfold profiles.PutImage. rewrite Hform.
  destruct (profiles.SaveImage Join store _ filename file _) as [[url|] sys'] eqn:Hs;
    [|done].
  destruct (SaveImage_result _ _ _ _ _ _ _ Hs) as [_ Hblob].
  done.
Qed.

(** X26. [PutProfile] stores the bound body as the whole profile of the
    user of the path: read back, the profile is the body with the user id
    of the path (not the body's), so a member the body leaves out, the
    image URL among them, is gone. A user without profile gets one. Other
    profiles and the image store stay. *)
Theorem PutProfile_replaces_the_whole_profile (c c' : gin.Context) (body : Profile.t)
    (st : profiles.State) :
  gin.Param c' "userid" = gin.Param c "userid" ->
  let out := profiles.PutProfile c (Some body) true st in
  fst out = profiles.Sent StatusOK (profiles.message "Profile updated")
  /\ fst (profiles.GetProfile c' true (snd out))
     = profiles.SentProfile StatusOK (Profile.with_UserID (gin.Param c "userid") body)
  /\ other_profiles (gin.Param c "userid") (profiles.profilesCollection (snd out))
     = other_profiles (gin.Param c "userid") (profiles.profilesCollection st)
  /\ profiles.system (snd out) = profiles.system st.
Proof.
  intros Hparam out. subst out. unfold profiles.PutProfile, profiles.GetProfile. cbn.
  split; [done|]. split; [|split; [|done]].
  - rewrite Hparam, find_upsert_first.
    + by destruct (List.find _ _).
    + intros x _. unfold profiles.by_user. by apply bool_decide_eq_true.
    + unfold profiles.by_user. by apply bool_decide_eq_true.
  - unfold other_profiles. apply filter_upsert_first.
    + intros x Hx. unfold profiles.by_user in *. cbn. rewrite Hx.
      by rewrite bool_decide_true.
    + unfold profiles.by_user. cbn. by rewrite bool_decide_true.
Qed.

(** X27. [PostProfile] for a user who has a profile adds a second
    document and answers 201, and [GetProfile] goes on to answer with the
    first one. *)
Theorem PostProfile_does_not_replace (c c' : gin.Context) (body old : Profile.t)
    (st : profiles.State) :
  gin.Param c' "userid" = gin.Param c "userid" ->
  List.find (profiles.by_user (gin.Param c "userid")) (profiles.profilesCollection st)
  = Some old ->
  let out := profiles.PostProfile c (Some body) true st in
  fst out = profiles.Sent StatusCreated (profiles.message "Profile created")
  /\ profiles.profilesCollection (snd out)
     = profiles.profilesCollection st ++ [Profile.with_UserID (gin.Param c "userid") body]
  /\ fst (profiles.GetProfile c' true (snd out)) = profiles.SentProfile StatusOK old.
Proof.
  intros Hparam Hold out. subst out. unfold profiles.PostProfile, profiles.GetProfile. cbn.
  split; [done|]. split; [done|].
  rewrite Hparam.
  destruct (find_split _ _ _ Hold) as (l1 & l2 & -> & H1 & Hp).
  rewrite <- app_assoc, find_app_none by done. cbn. by rewrite Hp.
Qed.

End profile_facts.

(** ** The qualification handlers *)

Lemma by_ids_with_ids (u id : string) (q : Qualification.t) :
  qualifications.by_ids u id (Qualification.with_ids u id q) = true.
Proof. unfold qualifications.by_ids. cbn. by rewrite !bool_decide_true. Qed.

(** X28. [PutQualificationEntry] reads back: afterwards
    [GetQualificationEntry] under the same ids answers with the body, its
    two ids replaced by those of the path. Repeating the call changes
    nothing more, and the collection grows by one exactly when no document
    had these ids. *)
Theorem PutQualificationEntry_reads_back (c c' : gin.Context) (body : Qualification.t)
    (docs : list Qualification.t) :
  gin.Param c' "userid" = gin.Param c "userid" ->
  gin.Param c' "qualificationid" = gin.Param c "qualificationid" ->
  let stored :=
    Qualification.with_ids (gin.Param c "userid") (gin.Param c "qualificationid") body in
  let out := qualifications.PutQualificationEntry c (Some body) true docs in
  fst out = qualifications.Sent StatusOK (qualifications.message "Qualification updated")
  /\ fst (qualifications.GetQualificationEntry c' true (snd out))
     = qualifications.SentOne StatusOK stored
  /\ snd (qualifications.PutQualificationEntry c (Some body) true (snd out)) = snd out
  /\ length (snd out)
     = if existsb (qualifications.by_ids (gin.Param c "userid")
                     (gin.Param c "qualificationid")) docs
       then length docs else S (length docs).
Proof.
  intros Hu Hid stored out. subst out stored.
  unfold qualifications.PutQualificationEntry, qualifications.GetQualificationEntry. cbn.
  split; [done|]. split; [|split].
  - rewrite Hu, Hid, find_upsert_first.
    + by destruct (List.find _ _).
    + intros x _. apply by_ids_with_ids.
    + apply by_ids_with_ids.
  - apply upsert_first_twice, by_ids_with_ids.
  - unfold upsert_first. destruct (existsb _ docs).
    + generalize (qualifications.by_ids (gin.Param c "userid")
                    (gin.Param c "qualificationid")).
      intros p. induction docs as [|y l IH]; [done|].
      cbn. destruct (p y); cbn; [done|]. by rewrite IH.
    + rewrite length_app. cbn. lia.
Qed.

(** X29. After [DeleteQualificationEntry], when at most one document had
    the ids of the path, [GetQualificationEntry] under these ids answers
    500 ["Could not retrieve qualification"], not 404; and deleting what is
    not there answers 200 and changes nothing. *)
Theorem DeleteQualificationEntry_then_read_fails (c c' : gin.Context)
    (docs : list Qualification.t) :
  gin.Param c' "userid" = gin.Param c "userid" ->
  gin.Param c' "qualificationid" = gin.Param c "qualificationid" ->
  (length (List.filter (qualifications.by_ids (gin.Param c "userid")
                          (gin.Param c "qualificationid")) docs) <= 1)%nat ->
  let out := qualifications.DeleteQualificationEntry c true docs in
  fst out = qualifications.Sent StatusOK (qualifications.message "Qualification deleted")
  /\ fst (qualifications.GetQualificationEntry c' true (snd out))
     = qualifications.Sent StatusInternalServerError
         (qualifications.error "Could not retrieve qualification")
  /\ (List.find (qualifications.by_ids (gin.Param c "userid")
                   (gin.Param c "qualificationid")) docs = None ->
      snd out = docs).
Proof.
  intros Hu Hid Hone out. subst out.
  unfold qualifications.DeleteQualificationEntry, qualifications.GetQualificationEntry. cbn.
  split; [done|]. rewrite Hu, Hid.
  set (p := qualifications.by_ids _ _) in *.
  split; [|intros Hnone; by apply delete_first_none].
  assert (List.find p (mongo.delete_first p docs) = None) as ->; [|done].
  apply find_none_of_filter_nil.
  clear Hu Hid. induction docs as [|y l IH]; [done|].
  cbn in *. destruct (p y) eqn:Hy; cbn in *.
  - destruct (List.filter p l); [done|cbn in Hone; lia].
  - rewrite Hy. by apply IH.
Qed.

(** X30. [PostQualification] takes the user id from the path and the
    qualification id from the server, whatever the body says; the document
    is added last, is found under these ids when they are new, and is the
    last of the user's qualifications. *)
Theorem PostQualification_takes_its_ids_from_the_server (c c' : gin.Context)
    (body : Qualification.t) (objectID : string) (docs : list Qualification.t) :
  gin.Param c' "userid" = gin.Param c "userid" ->
  gin.Param c' "qualificationid" = objectID ->
  (forall q, q ∈ docs -> Qualification.QualificationID q <> objectID) ->
  let stored := Qualification.with_ids (gin.Param c "userid") objectID body in
  let out := qualifications.PostQualification c (Some body) objectID true docs in
  fst out = qualifications.Sent StatusOK (qualifications.message "Qualification Created")
  /\ snd out = docs ++ [stored]
  /\ fst (qualifications.GetQualificationEntry c' true (snd out))
     = qualifications.SentOne StatusOK stored
  /\ fst (qualifications.GetQualifications c' true (snd out))
     = qualifications.SentAll StatusOK
         (List.filter (qualifications.by_user (gin.Param c "userid")) docs ++ [stored]).
Proof.
  intros Hu Hid Hfresh stored out. subst out stored.
  unfold qualifications.PostQualification, qualifications.GetQualificationEntry,
    qualifications.GetQualifications. cbn.
  split; [done|]. split; [done|]. rewrite Hu, Hid. split.
  - rewrite find_app_none.
    + cbn. by rewrite by_ids_with_ids.
    + destruct (List.find _ docs) as [x|] eqn:Hx; [|done].
      apply find_some in Hx as [Hin Hx]. apply list_elem_of_In in Hin.
      unfold qualifications.by_ids in Hx. apply andb_true_iff in Hx as [_ Hx].
      apply bool_decide_eq_true in Hx. by destruct (Hfresh x Hin).
  - rewrite List.filter_app. cbn. unfold qualifications.by_user at 2. cbn.
    by rewrite bool_decide_true.
Qed.

(** ** The further properties at concrete requests *)

Lemma owner_mutations_touch_one_journal_witness :
  elsewhere "j-2" "u1"
    (journalCollection
       (snd (journal.handler sample.env journal.PUT_status sample.set_status_archived
               sample.store)))
  = [sample.three_versions].
Proof.
  destruct (owner_mutations_touch_one_journal sample.env journal.PUT_status
              sample.set_status_archived sample.store "u1" eq_refl eq_refl) as [Hdocs _].
  refine (eq_trans Hdocs _). reflexivity.
Defined.

Lemma not_the_owners_journal_is_not_found_witness :
  fst (journal.UpdateJournalEntry sample.env further.as_u2 sample.store)
  = Reply StatusNotFound (gin.error "Journal entry not found")
  /\ journalCollection (snd (journal.UpdateJournalEntry sample.env further.as_u2 sample.store))
     = journalCollection sample.store
  /\ fst (journal.SetJournalVersion sample.env further.as_u2 sample.store)
     = Reply StatusNotFound (gin.error "Journal entry not found")
  /\ journalCollection (snd (journal.SetJournalVersion sample.env further.as_u2 sample.store))
     = journalCollection sample.store.
Proof.
  apply (not_the_owners_journal_is_not_found sample.env further.as_u2 sample.store "u2"
           (sample.body 2 "Mine now") eq_refl eq_refl).
  intros j Hj _.
  apply elem_of_cons in Hj as [-> | Hj]; [discriminate|].
  apply elem_of_cons in Hj as [-> | Hj]; [discriminate|].
  inversion Hj.
Defined.

Lemma UpdateJournalEntry_is_append_only_witness :
  exists j',
    fst (journal.UpdateJournalEntry sample.env further.append_j1 sample.store)
    = Reply StatusOK (Journal j')
    /\ map Entry.Version (JournalEntry.Entries j') = [1; 2; 3; 2]%Z
    /\ JournalEntry.Status j' = "public".
Proof.
  destruct (UpdateJournalEntry_is_append_only sample.env further.append_j1 sample.store
              "u1" (sample.body 9 "Day 4") sample.three_versions
              eq_refl eq_refl eq_refl eq_refl eq_refl)
    as (j' & stored & Hreply & _ & _ & Hentries & _ & _ & _ & Hstatus & _).
  exists j'. split; [exact Hreply|]. split.
  - rewrite Hentries. reflexivity.
  - exact Hstatus.
Defined.

Lemma ProcessJournalEntry_marks_processing_witness :
  journalCollection (snd (journal.ProcessJournalEntry sample.env sample.delete_j1 sample.store))
  = [mark_processing sample.three_versions; sample.draft]
  /\ clock_reads (snd (journal.ProcessJournalEntry sample.env sample.delete_j1 sample.store))
     = 0%nat.
Proof.
  destruct (ProcessJournalEntry_marks_processing sample.env sample.delete_j1 sample.store
              "u1" eq_refl eq_refl) as (_ & Hdocs & Hclock & _).
  split; [refine (eq_trans Hdocs _); reflexivity|exact Hclock].
Defined.

Lemma failed_lookup_reads_as_not_found_witness :
  fst (journal.GetJournalEntry further.down (sample.read_j1 ∅) sample.store)
  = Reply StatusNotFound (gin.error "Journal entry not found").
Proof.
  destruct (failed_lookup_reads_as_not_found further.down (sample.read_j1 ∅) sample.store
              eq_refl) as [[Hread _] _].
  exact Hread.
Defined.

Lemma undecodable_body_is_refused_witness :
  journal.CreateJournalEntry sample.env further.undecodable sample.store
  = (Reply StatusBadRequest (gin.error "unexpected end of JSON input"), sample.store)
  /\ journal.SetJournalStatus sample.env further.undecodable sample.store
     = (Reply StatusBadRequest (gin.error "unexpected end of JSON input"), sample.store).
Proof.
  destruct (undecodable_body_is_refused sample.env further.undecodable sample.store
              "unexpected end of JSON input" eq_refl) as [Hcreate Howner].
  split.
  - apply (Hcreate sample.ann). reflexivity.
  - apply (Howner "u1"). reflexivity.
Defined.

Lemma GetPublicJournals_lists_what_is_asked_for_witness :
  exists listed,
    fst (journal.GetPublicJournals sample.env further.list_sea sample.store)
    = Reply StatusOK (Journals listed)
    /\ forall j, j ∈ listed
                 <-> j ∈ journalCollection sample.store
                     /\ asked_for sample.env further.list_sea j.
Proof.
  exact (GetPublicJournals_lists_what_is_asked_for sample.env further.list_sea sample.store
           eq_refl eq_refl).
Defined.

Lemma GetUserJournals_lists_every_status_witness :
  fst (journal.GetUserJournals sample.env further.list_u1 sample.store)
  = Reply StatusOK (Journals [sample.three_versions; sample.draft]).
Proof.
  refine (eq_trans (GetUserJournals_lists_every_status sample.env further.list_u1
                      sample.store eq_refl eq_refl) _).
  reflexivity.
Defined.

Lemma read_routes_change_nothing_witness :
  journalCollection
    (snd (journal.serve sample.env journal.GET_versions
            (sample.with_cookie "j-1" (sample.body 0 EmptyString)) sample.store))
  = journalCollection sample.store
  /\ usersCollection
       (snd (journal.serve sample.env journal.GET_versions
               (sample.with_cookie "j-1" (sample.body 0 EmptyString)) sample.store))
     = usersCollection sample.store.
Proof.
  apply (read_routes_change_nothing sample.env journal.GET_versions).
  - reflexivity.
  - discriminate.
Defined.

Lemma GET_journal_never_shows_history_witness :
  exists h,
    fst (journal.serve sample.env journal.GET_journal
           (sample.with_cookie "j-1" (sample.body 0 EmptyString)) sample.store)
    = Reply StatusOK (H h)
    /\ h !! "entries" = Some (AnyEntries [sample.v 3 "Day 3"])
    /\ h !! "createdAt" = None
    /\ h !! "updatedAt" = None.
Proof.
  apply (GET_journal_never_shows_history sample.env
           (sample.with_cookie "j-1" (sample.body 0 EmptyString)) sample.store
           sample.three_versions (sample.v 3 "Day 3")); reflexivity.
Defined.

Lemma GET_versions_serves_any_registered_user_witness :
  fst (journal.serve sample.env journal.GET_versions
         (sample.with_cookie "j-7" (sample.body 0 EmptyString)) further.shelf)
  = Reply StatusOK (EntryList [sample.v 1 "Mon"; sample.v 2 "Tue"]).
Proof.
  apply (GET_versions_serves_any_registered_user sample.env
           (sample.with_cookie "j-7" (sample.body 0 EmptyString)) further.shelf
           "signed-u1" sample.ann further.of_u9); reflexivity.
Defined.

Lemma POST_creates_for_the_cookie_user_witness :
  exists j,
    fst (journal.serve sample.env journal.POST_root sample.post_day1 sample.empty_store)
    = Reply StatusCreated (Journal j)
    /\ journalCollection
         (snd (journal.serve sample.env journal.POST_root sample.post_day1
                 sample.empty_store)) = [] ++ [j]
    /\ JournalEntry.UserID j = "u1"
    /\ JournalEntry.JournalID j = "0-4f6c"
    /\ JournalEntry.Status j = "pending"
    /\ JournalEntry.Taxonomy j = Taxonomy.zero
    /\ JournalEntry.Summary j = EmptyString.
Proof.
  apply (POST_creates_for_the_cookie_user sample.env sample.post_day1 sample.empty_store
           "signed-u1" sample.ann (sample.body 0 "Day 1")); reflexivity.
Defined.

Lemma created_journal_reads_back_witness :
  exists h e,
    fst (journal.serve sample.env journal.GET_journal (further.read "0-4f6c")
           (snd (journal.serve sample.env journal.POST_root sample.post_day1
                   sample.empty_store)))
    = Reply StatusOK (H h)
    /\ h !! "entries" = Some (AnyEntries [e])
    /\ Entry.Version e = 0%Z
    /\ Entry.Title e = "Day 1"
    /\ Entry.Content e = "..."
    /\ Entry.Attachments e = []
    /\ h !! "userID" = Some (AnyString "u1")
    /\ h !! "version" = Some (AnyInt 1)
    /\ h !! "status" = Some (AnyString "pending").
Proof.
  apply (created_journal_reads_back sample.env sample.post_day1 (further.read "0-4f6c")
           sample.empty_store "signed-u1" sample.ann (sample.body 0 "Day 1")).
  - reflexivity.
  - reflexivity.
  - reflexivity.
  - reflexivity.
  - intros n. reflexivity.
  - intros j Hj. inversion Hj.
  - reflexivity.
Defined.

Lemma published_journal_is_listed_witness :
  exists listed,
    fst (journal.GetPublicJournals sample.env (further.read "j-2")
           (snd (journal.SetJournalStatus sample.env further.publish_j2 sample.store)))
    = Reply StatusOK (Journals listed)
    /\ retag "public" 1700000000%Z sample.draft ∈ listed.
Proof.
  apply (published_journal_is_listed sample.env further.publish_j2 (further.read "j-2")
           sample.store "u1" sample.draft).
  - reflexivity.
  - reflexivity.
  - intros n. reflexivity.
  - reflexivity.
  - reflexivity.
Defined.

Lemma deleted_journal_is_not_found_witness :
  fst (journal.DeleteJournalEntry sample.env sample.delete_j1 sample.store)
  = Reply StatusOK (gin.message "Journal entry deleted")
  /\ length (journalCollection
               (snd (journal.DeleteJournalEntry sample.env sample.delete_j1 sample.store)))
     = 1%nat
  /\ fst (journal.GetJournalEntry sample.env (further.read "j-1")
            (snd (journal.DeleteJournalEntry sample.env sample.delete_j1 sample.store)))
     = Reply StatusNotFound (gin.error "Journal entry not found")
  /\ fst (journal.GetJournalMeta sample.env (further.read "j-1")
            (snd (journal.DeleteJournalEntry sample.env sample.delete_j1 sample.store)))
     = Reply StatusNotFound (gin.error "Journal entry not found").
Proof.
  apply (deleted_journal_is_not_found sample.env sample.delete_j1 (further.read "j-1")
           sample.store "u1" sample.three_versions).
  - reflexivity.
  - intros n. reflexivity.
  - reflexivity.
  - reflexivity.
  - reflexivity.
Defined.

Lemma required_authentication_admits_token_owner_witness :
  exists token user,
    gin.Cookie (sample.with_cookie "j-1" (sample.body 0 EmptyString)) "token" = Some token
    /\ ParseWithClaims sample.env token = Some (User.ID user)
    /\ user ∈ usersCollection sample.store.
Proof.
  destruct (required_authentication_admits_token_owner sample.env
              (sample.with_cookie "j-1" (sample.body 0 EmptyString))
              (gin.SetKey (sample.with_cookie "j-1" (sample.body 0 EmptyString))
                 "user" (AnyUser sample.ann))
              sample.store
              (mkWorld (journalCollection sample.store) [sample.ann] 0 1 2) eq_refl)
    as (token & user & Hcookie & Hparse & Huser & _).
  exists token, user. split; [exact Hcookie|]. split; [exact Hparse|exact Huser].
Defined.

Lemma missing_or_bad_token_costs_no_lookup_witness :
  auth.AuthMiddleware sample.env true (further.read "j-1") sample.store
  = (Reply StatusUnauthorized (gin.error "Not authenticated"), sample.store)
  /\ auth.AuthMiddleware sample.env false (further.read "j-1") sample.store
     = (Ret (further.read "j-1"), sample.store).
Proof.
  apply (missing_or_bad_token_costs_no_lookup sample.env (further.read "j-1") sample.store).
  left. reflexivity.
Defined.

(** The host [127.0.0.1:8080], whose host part has three dots: the
    identifier of the request is its first number. *)
Example extractSubdomain_of_an_address :
  main.extractSubdomain
    {| wall := wall sample.env; fault := fault sample.env; uuid := uuid sample.env;
       ParseWithClaims := ParseWithClaims sample.env;
       SplitHostPort := fun _ => Some "127.0.0.1";
       date_between := date_between sample.env |}
    "127.0.0.1:8080" = "127".
Proof. reflexivity. Qed.

Lemma S3ImageStore_failure_stores_nothing_witness :
  snd (profile.S3ImageStore_SaveImage (profile.mkS3 "avatars") "u1" "me.png"
         further.avatar further.offline) = further.offline.
Proof.
  destruct (S3ImageStore_failure_stores_nothing (profile.mkS3 "avatars") "u1" "me.png"
              further.avatar further.offline eq_refl) as [Hsame _].
  exact Hsame.
Defined.

Lemma PutImage_records_the_url_witness :
  exists url,
    fst (profiles.PutImage sample.join (Some further.bucket) further.for_u1 further.upload
           true further.state)
    = profiles.Sent StatusOK {["profileImage" := AnyString url]}
    /\ profile.ends_with url "u1-me.png"
    /\ fst (profiles.GetProfile further.for_u1 true
              (snd (profiles.PutImage sample.join (Some further.bucket) further.for_u1
                      further.upload true further.state)))
       = profiles.SentProfile StatusOK
           (Profile.with_ProfileImg (Some url) further.ann_profile).
Proof.
  destruct (PutImage_records_the_url sample.join further.bucket further.for_u1
              further.for_u1 further.upload "me.png" further.avatar further.state
              eq_refl) as (url & Hreply & Hurl & _ & Hread & _).
  - discriminate.
  - reflexivity.
  - exists url. split; [exact Hreply|]. split; [exact Hurl|exact Hread].
Defined.

Lemma PutImage_keeps_the_blob_when_the_store_fails_witness :
  profiles.profilesCollection
    (snd (profiles.PutImage sample.join (Some further.bucket) further.for_u1 further.upload
            false further.state)) = [further.ann_profile]
  /\ profile.objects
       (profiles.system
          (snd (profiles.PutImage sample.join (Some further.bucket) further.for_u1
                  further.upload false further.state)))
       !! ("avatars", "u1-me.png") = Some [Byte.x89; Byte.x50].
Proof.
  destruct (PutImage_keeps_the_blob_when_the_store_fails sample.join further.bucket
              further.for_u1 further.upload "me.png" further.avatar further.state
              eq_refl) as (_ & Hprofiles & Hblob).
  - discriminate.
  - split; [exact Hprofiles|exact Hblob].
Defined.

Lemma PutProfile_replaces_the_whole_profile_witness :
  fst (profiles.GetProfile further.for_u1 true
         (snd (profiles.PutProfile further.for_u1 (Some further.new_profile) true
                 further.state)))
  = profiles.SentProfile StatusOK
      (Profile.mk "u1" (Some "Ann B.") None None (Some "hello") None None None).
Proof.
  destruct (PutProfile_replaces_the_whole_profile further.for_u1 further.for_u1
              further.new_profile further.state eq_refl) as (_ & Hread & _).
  exact Hread.
Defined.

Lemma PostProfile_does_not_replace_witness :
  fst (profiles.GetProfile further.for_u1 true
         (snd (profiles.PostProfile further.for_u1 (Some further.new_profile) true
                 further.state)))
  = profiles.SentProfile StatusOK further.ann_profile.
Proof.
  destruct (PostProfile_does_not_replace further.for_u1 further.for_u1
              further.new_profile further.ann_profile further.state eq_refl eq_refl)
    as (_ & _ & Hread).
  exact Hread.
Defined.

Lemma PutQualificationEntry_reads_back_witness :
  fst (qualifications.GetQualificationEntry further.for_u1 true
         (snd (qualifications.PutQualificationEntry further.for_u1
                 (Some further.other_degree) true [further.degree])))
  = qualifications.SentOne StatusOK
      (Qualification.mk "u1" "q-1" "MSc" "Uni" "2013" "2014" EmptyString).
Proof.
  destruct (PutQualificationEntry_reads_back further.for_u1 further.for_u1
              further.other_degree [further.degree] eq_refl eq_refl) as (_ & Hread & _).
  exact Hread.
Defined.

Lemma DeleteQualificationEntry_then_read_fails_witness :
  fst (qualifications.GetQualificationEntry further.for_u1 true
         (snd (qualifications.DeleteQualificationEntry further.for_u1 true
                 [further.other_degree; further.degree])))
  = qualifications.Sent StatusInternalServerError
      (qualifications.error "Could not retrieve qualification").
Proof.
  destruct (DeleteQualificationEntry_then_read_fails further.for_u1 further.for_u1
              [further.other_degree; further.degree] eq_refl eq_refl) as (_ & Hread & _).
  - vm_compute. lia.
  - exact Hread.
Defined.

Lemma PostQualification_takes_its_ids_from_the_server_witness :
  snd (qualifications.PostQualification further.for_u1 (Some further.other_degree)
         "65f0c1" true [further.degree])
  = [further.degree; Qualification.mk "u1" "65f0c1" "MSc" "Uni" "2013" "2014" EmptyString].
Proof.
  assert (forall q, q ∈ [further.degree] -> Qualification.QualificationID q <> "65f0c1")
    as Hfresh.
  { intros q Hq. apply elem_of_cons in Hq as [-> | Hq]; [discriminate|]. inversion Hq. }
  assert (gin.Param further.minted "qualificationid" = "65f0c1") as Hid by reflexivity.
  destruct (PostQualification_takes_its_ids_from_the_server further.for_u1 further.minted
              further.other_degree "65f0c1" [further.degree] eq_refl Hid Hfresh)
    as (_ & Hdocs & _).
  exact Hdocs.
Defined.

Lemma LocalImageStore_failed_copy_clobbers_witness :
  fst (profile.LocalImageStore_SaveImage sample.join (profile.mkLocal "/images")
         "u1" "me.png" further.torn further.used_disk) = None
  /\ profile.files
       (snd (profile.LocalImageStore_SaveImage sample.join (profile.mkLocal "/images")
               "u1" "me.png" further.torn further.used_disk))
     !! sample.join "/images" "u1-me.png" = Some [Byte.x89].
Proof.
  exact (proj2 (LocalImageStore_failed_copy_clobbers sample.join
                  (profile.mkLocal "/images") "u1" "me.png" further.torn
                  further.used_disk) 1%nat eq_refl eq_refl).
Defined.

Lemma image_names_of_two_owners_collide_witness :
  profile.s3_blob_at (profile.mkS3 "avatars") "u-p-r.png"
    (snd (profile.S3ImageStore_SaveImage (profile.mkS3 "avatars") "u-p" "r.png"
            (sample.photo [Byte.x02])
            (snd (profile.S3ImageStore_SaveImage (profile.mkS3 "avatars") "u" "p-r.png"
                    (sample.photo [Byte.x01]) sample.machine))))
  = Some [Byte.x02].
Proof.
  exact (proj2 (proj2 (image_names_of_two_owners_collide (profile.mkS3 "avatars")
                         "u" "p" "r.png" (sample.photo [Byte.x01])
                         (sample.photo [Byte.x02]) sample.machine)
                  eq_refl eq_refl eq_refl)).
Defined.
